(** * 0g-data-avail disperser: ingestion keys, rate limiter, status API

    A shallow embedding of the Go sources

      - package [ratelimit]  ([common/ratelimit/limiter.go]): the
        leaky-bucket admission filter;
      - package [core]       ([core/serialization.go]): the encoding and
        hash of a batch header;
      - package [blobstore]  (the Go text that follows the rules of
        [disperser/Makefile]): the shared blob store;
      - package [apiserver]  (the Go text that follows the messages of
        [disperser/api/proto/encoder/encoder.proto]): the handlers
        [DisperseBlob] and [GetBlobStatus];

    followed by the properties of the disperser specification that concern
    them.  Go strings and byte slices are both [list byte]; unsigned
    integers are [N] and durations and instants [Z], with the wrap-around
    written out where the code computes; stores are finite maps; a Go
    function that returns a value and an error returns an [outcome], which
    also has the run-time panic.  Logging, metrics and locks are left
    out. *)

From Stdlib Require Import ZArith NArith List Lia Bool.
From Stdlib Require Import Strings.Byte Strings.String Init.Decimal DecimalN.
From stdpp Require Import base decidable countable option list finite vector gmap.

Import ListNotations.
Local Open Scope Z_scope.

(* ===================================================================== *)
(** * Bytes, Go strings and machine integers *)
(* ===================================================================== *)

(** A Go [string] is an immutable sequence of bytes, and [[]byte(s)] does not
    change the bytes; both are modelled by [list byte]. *)
Abbreviation gostring := (list byte).

(** String literals of the source. *)
Definition lit (s : string) : gostring := list_byte_of_string s.

#[global] Instance byte_eq_dec : EqDecision byte := Byte.byte_eq_dec.
#[global] Instance byte_countable : Countable byte :=
  inj_countable Byte.to_N Byte.of_N Byte.of_to_N.

#[global] Instance of_bits_inj : Inj (=) (=) Byte.of_bits.
Proof.
  intros a b Hab.
  rewrite <- (Byte.to_bits_of_bits a), <- (Byte.to_bits_of_bits b).
  now rewrite Hab.
Qed.
#[global] Instance of_bits_surj : Surj (=) Byte.of_bits.
Proof. intros b. exists (Byte.to_bits b). apply Byte.of_bits_to_bits. Qed.
#[global] Instance byte_finite : Finite byte := bijective_finite Byte.of_bits.

(** The byte with value [n mod 256]. *)
Definition byte_of_N (n : N) : byte :=
  match Byte.of_N (n mod 256)%N with
  | Some b => b
  | None => x00
  end.

(** Conversions to the fixed-width integer types of Go. *)
Definition uint64 (z : Z) : Z := z mod 2 ^ 64.
Definition int64 (z : Z) : Z := (z + 2 ^ 63) mod 2 ^ 64 - 2 ^ 63.

Definition minInt64 : Z := - 2 ^ 63.
Definition maxInt64 : Z := 2 ^ 63 - 1.

(** Go results: a value, an [error], or a run-time panic. *)
Inductive outcome (E A : Type) : Type :=
| Ok (a : A)
| Err (e : E)
| Panic.
Arguments Ok {E A} a.
Arguments Err {E A} e.
Arguments Panic {E A}.

(* ===================================================================== *)
(** * crypto/sha256 *)
(* ===================================================================== *)

Module Sha256.
Local Open Scope N_scope.

Definition w32 (x : N) : N := x mod 2 ^ 32.
Definition add32 (x y : N) : N := w32 (x + y).
Definition not32 (x : N) : N := N.lxor x 0xffffffff.
Definition rotr (n x : N) : N :=
  N.lor (N.shiftr x n) (w32 (N.shiftl x (32 - n))).

Definition Ch (x y z : N) : N := N.lxor (N.land x y) (N.land (not32 x) z).
Definition Maj (x y z : N) : N :=
  N.lxor (N.lxor (N.land x y) (N.land x z)) (N.land y z).
Definition bsig0 (x : N) : N :=
  N.lxor (N.lxor (rotr 2 x) (rotr 13 x)) (rotr 22 x).
Definition bsig1 (x : N) : N :=
  N.lxor (N.lxor (rotr 6 x) (rotr 11 x)) (rotr 25 x).
Definition ssig0 (x : N) : N :=
  N.lxor (N.lxor (rotr 7 x) (rotr 18 x)) (N.shiftr x 3).
Definition ssig1 (x : N) : N :=
  N.lxor (N.lxor (rotr 17 x) (rotr 19 x)) (N.shiftr x 10).

(** The constants of FIPS 180-4 are fractional parts of roots of the first
    primes: of the cube roots of the first 64 for the round constants, of
    the square roots of the first 8 for the initial chaining value. *)
Definition is_prime (n : N) : bool :=
  (1 <? n) && forallb (fun d : nat => negb (n mod N.of_nat d =? 0))
                      (seq 2 (N.to_nat n - 2)).

Definition primes : list N :=
  firstn 64 (filter is_prime (map N.of_nat (seq 2 310))).

(** The integer part of the cube root, bit by bit from bit [k - 1] down. *)
Fixpoint cube_root (k : nat) (n acc : N) : N :=
  match k with
  | O => acc
  | S k' =>
      let c := acc + 2 ^ N.of_nat k' in
      if (c * c * c <=? n) then cube_root k' n c else cube_root k' n acc
  end.

Definition _K : list N :=
  Eval vm_compute in map (fun p => w32 (cube_root 36 (p * 2 ^ 96) 0)) primes.

Definition _H : list N :=
  Eval vm_compute in map (fun p => w32 (N.sqrt (p * 2 ^ 64))) (firstn 8 primes).

(** The eight chaining words [h0 .. h7] of the digest. *)
Record chain : Type := Chain {
  ha : N; hb : N; hc : N; hd : N; he : N; hf : N; hg : N; hh : N
}.

Definition init : chain :=
  Chain (nth 0 _H 0) (nth 1 _H 0) (nth 2 _H 0) (nth 3 _H 0)
        (nth 4 _H 0) (nth 5 _H 0) (nth 6 _H 0) (nth 7 _H 0).

(** Big-endian word of four bytes, and back. *)
Definition be32 (bs : list byte) : N :=
  fold_left (fun acc b => acc * 256 + Byte.to_N b) bs 0.
Definition put32 (w : N) : list byte :=
  [ byte_of_N (N.shiftr w 24); byte_of_N (N.shiftr w 16);
    byte_of_N (N.shiftr w 8); byte_of_N w ].
Definition put64 (w : N) : list byte :=
  put32 (N.shiftr w 32) ++ put32 w.

Fixpoint words (n : nat) (bs : list byte) : list N :=
  match n with
  | O => []
  | S n' => be32 (firstn 4 bs) :: words n' (skipn 4 bs)
  end.

(** Message schedule, most recent word first. *)
Fixpoint schedule (n : nat) (rev_w : list N) : list N :=
  match n with
  | O => rev_w
  | S n' =>
      let w := add32 (add32 (ssig1 (nth 1 rev_w 0)) (nth 6 rev_w 0))
                     (add32 (ssig0 (nth 14 rev_w 0)) (nth 15 rev_w 0)) in
      schedule n' (w :: rev_w)
  end.

Definition round (s : chain) (kw : N * N) : chain :=
  let t1 := add32 (add32 (add32 (hh s) (bsig1 (he s)))
                         (add32 (Ch (he s) (hf s) (hg s)) (fst kw)))
                  (snd kw) in
  let t2 := add32 (bsig0 (ha s)) (Maj (ha s) (hb s) (hc s)) in
  Chain (add32 t1 t2) (ha s) (hb s) (hc s)
        (add32 (hd s) t1) (he s) (hf s) (hg s).

(** One 64-byte block. *)
Definition block (s : chain) (p : list byte) : chain :=
  let w := List.rev (schedule 48 (List.rev (words 16 p))) in
  let r := fold_left round (combine _K w) s in
  Chain (add32 (ha s) (ha r)) (add32 (hb s) (hb r))
        (add32 (hc s) (hc r)) (add32 (hd s) (hd r))
        (add32 (he s) (he r)) (add32 (hf s) (hf r))
        (add32 (hg s) (hg r)) (add32 (hh s) (hh r)).

(** The streaming [digest] of Go: chaining value, pending bytes of the
    current block, and the number of bytes written. *)
Record digest : Type := Digest {
  dh : chain;
  dx : list byte;
  dlen : N
}.

Definition New : digest := Digest init [] 0.

Definition write_byte (d : digest) (b : byte) : digest :=
  let x' := dx d ++ [b] in
  if (N.of_nat (length x') =? 64)
  then Digest (block (dh d) x') [] (dlen d + 1)
  else Digest (dh d) x' (dlen d + 1).

Definition Write (d : digest) (p : list byte) : digest :=
  fold_left write_byte p d.

Definition checkSum (d : digest) : list byte :=
  let l := dlen d in
  let npad := if (l mod 64 <? 56) then 56 - l mod 64 else 64 + 56 - l mod 64 in
  let d1 := Write d (x80 :: repeat x00 (N.to_nat npad - 1)) in
  let d2 := Write d1 (put64 ((l * 8) mod 2 ^ 64)) in
  let s := dh d2 in
  put32 (ha s) ++ put32 (hb s) ++ put32 (hc s) ++ put32 (hd s) ++
  put32 (he s) ++ put32 (hf s) ++ put32 (hg s) ++ put32 (hh s).

(** [Sum(b)] appends the checksum of what was written so far to [b]; the
    digest itself is left as it was. *)
Definition Sum (d : digest) (b : list byte) : list byte := b ++ checkSum d.

End Sha256.

(* ===================================================================== *)
(** * encoding/hex and fmt *)
(* ===================================================================== *)

Module Hex.
Definition hextable : list byte := lit "0123456789abcdef".

Definition digit (n : N) : byte := nth (N.to_nat n) hextable x00.

Definition encode_byte (b : byte) : list byte :=
  [ digit (N.shiftr (Byte.to_N b) 4); digit (N.land (Byte.to_N b) 0x0f) ].

(** [hex.EncodeToString]. *)
Definition EncodeToString (src : list byte) : gostring :=
  flat_map encode_byte src.
End Hex.

(* ===================================================================== *)
(** * golang.org/x/crypto/sha3: legacy Keccak-256 *)
(* ===================================================================== *)

Module Keccak.
Local Open Scope N_scope.

Definition w64 (x : N) : N := x mod 2 ^ 64.
Definition not64 (x : N) : N := N.lxor x 0xffffffffffffffff.
Definition rotl (n x : N) : N :=
  N.lor (w64 (N.shiftl x n)) (N.shiftr x (64 - n)).

(** Lane [(x, y)] of the 5x5 state is at index [x + 5 * y]. *)
Definition lane (st : list N) (x y : nat) : N :=
  nth (x mod 5 + 5 * (y mod 5)) st 0.

Definition rotc : list N :=
  [ 0; 1; 62; 28; 27;   36; 44; 6; 55; 20;   3; 10; 43; 25; 39;
    41; 45; 15; 21; 8;  18; 2; 61; 56; 14 ].

Definition rc : list N :=
  [ 0x0000000000000001; 0x0000000000008082; 0x800000000000808a;
    0x8000000080008000; 0x000000000000808b; 0x0000000080000001;
    0x8000000080008081; 0x8000000000008009; 0x000000000000008a;
    0x0000000000000088; 0x0000000080008009; 0x000000008000000a;
    0x000000008000808b; 0x800000000000008b; 0x8000000000008089;
    0x8000000000008003; 0x8000000000008002; 0x8000000000000080;
    0x000000000000800a; 0x800000008000000a; 0x8000000080008081;
    0x8000000000008080; 0x0000000080000001; 0x8000000080008008 ].

Definition column (st : list N) (x : nat) : N :=
  N.lxor (N.lxor (N.lxor (N.lxor (lane st x 0) (lane st x 1)) (lane st x 2))
                 (lane st x 3)) (lane st x 4).

Definition theta (st : list N) : list N :=
  map (fun i : nat =>
         let x := (i mod 5)%nat in
         N.lxor (nth i st 0)
                (N.lxor (column st (x + 4)) (rotl 1 (column st (x + 1)))))
      (seq 0 25).

Definition rho_pi (st : list N) : list N :=
  map (fun j : nat =>
         let X := (j mod 5)%nat in
         let Y := (j / 5)%nat in
         let x := ((X + 3 * Y) mod 5)%nat in
         rotl (nth (x + 5 * X) rotc 0) (lane st x X))
      (seq 0 25).

Definition chi (st : list N) : list N :=
  map (fun i : nat =>
         let x := (i mod 5)%nat in
         let y := (i / 5)%nat in
         N.lxor (nth i st 0)
                (N.land (not64 (lane st (x + 1) y)) (lane st (x + 2) y)))
      (seq 0 25).

Definition iota (c : N) (st : list N) : list N :=
  match st with
  | [] => []
  | a :: st' => N.lxor a c :: st'
  end.

Definition keccak_round (st : list N) (c : N) : list N :=
  iota c (chi (rho_pi (theta st))).

Definition keccakF1600 (st : list N) : list N := fold_left keccak_round rc st.

(** Little-endian lane of eight bytes, and back. *)
Definition le64 (bs : list byte) : N :=
  fold_right (fun b acc => Byte.to_N b + 256 * acc) 0 bs.
Fixpoint put_le (n : nat) (w : N) : list byte :=
  match n with
  | O => []
  | S n' => byte_of_N w :: put_le n' (N.shiftr w 8)
  end.

Fixpoint lanes (n : nat) (bs : list byte) : list N :=
  match n with
  | O => []
  | S n' => le64 (firstn 8 bs) :: lanes n' (skipn 8 bs)
  end.

Definition rate : nat := 136.

Definition xor_in (st : list N) (blk : list byte) : list N :=
  map (fun p : N * N => N.lxor (fst p) (snd p))
      (combine st (lanes 17 blk ++ repeat 0 8)).

Fixpoint absorb (n : nat) (st : list N) (bs : list byte) : list N :=
  match n with
  | O => st
  | S n' => absorb n' (keccakF1600 (xor_in st (firstn rate bs))) (skipn rate bs)
  end.

(** Multi-rate padding with the legacy domain byte [0x01]. *)
Definition pad (msg : list byte) : list byte :=
  let q := (rate - length msg mod rate)%nat in
  if (q =? 1)%nat then msg ++ [x81]
  else msg ++ x01 :: repeat x00 (q - 2) ++ [x80].

(** [NewLegacyKeccak256], [Write(msg)], [Sum(nil)]. *)
Definition Sum256 (msg : list byte) : list byte :=
  let p := pad msg in
  let st := absorb (length p / rate) (repeat 0 25) p in
  firstn 32 (flat_map (put_le 8) st).
End Keccak.

Module Fmt.
Fixpoint digits (u : Decimal.uint) : gostring :=
  match u with
  | Decimal.Nil => []
  | Decimal.D0 u' => "0"%byte :: digits u'
  | Decimal.D1 u' => "1"%byte :: digits u'
  | Decimal.D2 u' => "2"%byte :: digits u'
  | Decimal.D3 u' => "3"%byte :: digits u'
  | Decimal.D4 u' => "4"%byte :: digits u'
  | Decimal.D5 u' => "5"%byte :: digits u'
  | Decimal.D6 u' => "6"%byte :: digits u'
  | Decimal.D7 u' => "7"%byte :: digits u'
  | Decimal.D8 u' => "8"%byte :: digits u'
  | Decimal.D9 u' => "9"%byte :: digits u'
  end.

(** The verb [%d] at an unsigned integer. *)
Definition d (n : N) : gostring := digits (N.to_uint n).
End Fmt.

Module Strings.
Fixpoint HasPrefix (s prefix : gostring) : bool :=
  match prefix, s with
  | [], _ => true
  | _ :: _, [] => false
  | p :: prefix', c :: s' => bool_decide (p = c) && HasPrefix s' prefix'
  end.

(** [strings.Contains]: [substr] occurs somewhere within [s]. *)
Fixpoint Contains (s substr : gostring) : bool :=
  HasPrefix s substr ||
  match s with
  | [] => false
  | _ :: s' => Contains s' substr
  end.
End Strings.

(* ===================================================================== *)
(** * package core: blobs, headers, serialization.go *)
(* ===================================================================== *)

(** An [error] is the message it carries. *)
Abbreviation error := (list byte).

Module Core.
Record SecurityParam : Type := mkSecurityParam {
  QuorumID : N;             (* uint8 *)
  AdversaryThreshold : N;   (* uint8 *)
  QuorumThreshold : N       (* uint8 *)
}.

Record BlobRequestHeader : Type := mkBlobRequestHeader {
  SecurityParams : list SecurityParam;
  TargetRowNum : N          (* uint32 *)
}.

Record Blob : Type := mkBlob {
  RequestHeader : BlobRequestHeader;
  Data : list byte
}.

Record BlobQuorumInfo : Type := mkBlobQuorumInfo {
  Param : SecurityParam;
  ChunkLength : N
}.

Record QuorumResult : Type := mkQuorumResult {
  PercentSigned : N         (* uint8 *)
}.

Record BatchHeader : Type := mkBatchHeader {
  BatchRoot : list byte;            (* [32]byte *)
  ReferenceBlockNumber : N          (* uint32 *)
}.

(** go-ethereum's ABI packing of the static tuple
    [(bytes32 blobHeadersRoot, uint32 referenceBlockNumber)]: the fixed
    bytes right-padded to a word, the integer as a big-endian word. *)
Definition RightPadBytes (bs : list byte) (n : nat) : list byte :=
  if (n <=? length bs)%nat then bs else bs ++ repeat x00 (n - length bs).

Fixpoint be_bytes (n : nat) (v : N) : list byte :=
  match n with
  | O => []
  | S n' => be_bytes n' (N.shiftr v 8) ++ [byte_of_N v]
  end.

Definition U256Bytes (v : N) : list byte := be_bytes 32 v.

Definition Pack (blobHeadersRoot : list byte) (referenceBlockNumber : N)
  : outcome error (list byte) :=
  Ok (RightPadBytes blobHeadersRoot 32 ++ U256Bytes referenceBlockNumber).

(** [BatchHeader.Encode]: the struct handed to [Pack] takes its root from
    the header and a literal 0 as reference block number. *)
Definition Encode (h : BatchHeader) : outcome error (list byte) :=
  match Pack (BatchRoot h) 0 with
  | Ok bytes => Ok bytes
  | Err e => Err e
  | Panic => Panic
  end.

(** [BatchHeader.GetBatchHeaderHash]. *)
Definition GetBatchHeaderHash (h : BatchHeader) : outcome error (list byte) :=
  match Encode h with
  | Ok headerByte => Ok (firstn 32 (Keccak.Sum256 headerByte))
  | Err e => Err e
  | Panic => Panic
  end.
Definition ErrInvalidCommitment : error := lit "invalid commitment".

(** A blob header; [None] is the nil slice.  Only [CommitmentRoot] is read
    or written by the functions below. *)
Record BlobHeader : Type := mkBlobHeader {
  CommitmentRoot : option (list byte)
}.

(** [BlobHeader.Encode]. *)
Definition EncodeBlobHeader (h : BlobHeader) : outcome error (list byte) :=
  match CommitmentRoot h with
  | None => Err ErrInvalidCommitment
  | Some root => Ok root
  end.

(** [BlobHeader.GetBlobHeaderHash]. *)
Definition GetBlobHeaderHash (h : BlobHeader) : outcome error (list byte) :=
  match EncodeBlobHeader h with
  | Ok headerByte => Ok (firstn 32 (Keccak.Sum256 headerByte))
  | Err e => Err e
  | Panic => Panic
  end.

(** [GetCommitmentHash]. *)
Definition GetCommitmentHash (commitment : list byte) : list byte :=
  firstn 32 (Keccak.Sum256 commitment).

(** [copy(dst, src)]: the first [min (len dst) (len src)] bytes of [dst]
    are replaced by those of [src]. *)
Definition copyInto (dst src : list byte) : list byte :=
  firstn (length dst) src ++ skipn (length src) dst.

Section Merkle.
(** The Merkle tree of the library: its type, [NewTree] over the leaves
    (with the Keccak-256 hash type) and [Root] are parameters; the root of
    a tree that was built is a slice that is not nil. *)
Variable MerkleTree : Type.
Variable NewTree : list (list byte) -> outcome error MerkleTree.
Variable Root : MerkleTree -> list byte.

(** The loop of [SetBatchRoot] that fills [leafs]. *)
Fixpoint headerLeafs (blobHeaders : list BlobHeader)
  : outcome error (list (list byte)) :=
  match blobHeaders with
  | [] => Ok []
  | header :: rest =>
      match GetBlobHeaderHash header with
      | Err err => Err (lit "failed to compute blob header hash: " ++ err)
      | Panic => Panic
      | Ok leaf =>
          match headerLeafs rest with
          | Ok leafs => Ok (leaf :: leafs)
          | Err err => Err err
          | Panic => Panic
          end
      end
  end.

(** [BatchHeader.SetBatchRoot]: the header after the call, and what is
    returned. *)
Definition SetBatchRoot (h : BatchHeader) (blobHeaders : list BlobHeader)
  : BatchHeader * outcome error MerkleTree :=
  match headerLeafs blobHeaders with
  | Err err => (h, Err err)
  | Panic => (h, Panic)
  | Ok leafs =>
      match NewTree leafs with
      | Err err => (h, Err err)
      | Panic => (h, Panic)
      | Ok tree =>
          (mkBatchHeader (copyInto (BatchRoot h) (Root tree))
                         (ReferenceBlockNumber h),
           Ok tree)
      end
  end.

(** [BlobHeader.SetCommitmentRoot]: the header after the call, and the
    error. *)
Definition SetCommitmentRoot (h : BlobHeader) (commitments : list (list byte))
  : BlobHeader * outcome error unit :=
  let leafs := map GetCommitmentHash commitments in
  match NewTree leafs with
  | Err err => (h, Err err)
  | Panic => (h, Panic)
  | Ok tree => (mkBlobHeader (Some (Root tree)), Ok tt)
  end.
End Merkle.
End Core.

(* ===================================================================== *)
(** * package disperser: keys, statuses and metadata records *)
(* ===================================================================== *)

Module Disperser.
Record BlobKey : Type := mkBlobKey {
  KeyBlobHash : gostring;
  KeyMetadataHash : gostring
}.

(** Modelled from the spec: [BlobKey.String] is declared outside the files
    at hand; the printable form is [BlobHash + "-" + MetadataHash]. *)
Definition String (k : BlobKey) : gostring :=
  KeyBlobHash k ++ lit "-" ++ KeyMetadataHash k.

Inductive BlobStatus : Type :=
| Processing
| Confirmed
| Failed
| Finalized
| InsufficientSignatures.

#[global] Instance BlobStatus_eq_dec : EqDecision BlobStatus.
Proof. solve_decision. Defined.

Record RequestMetadata : Type := mkRequestMetadata {
  BlobRequestHeader : Core.BlobRequestHeader;
  BlobSize : N;
  RequestedAt : N           (* uint64, nanoseconds *)
}.

(** [QuorumResults] maps a quorum to the record of its result. *)
Record ConfirmationInfo : Type := mkConfirmationInfo {
  BatchID : N;
  BlobIndex : N;
  BatchRoot : list byte;
  ReferenceBlockNumber : N;
  BatchHeaderHash : list byte;
  SignatoryRecordHash : list byte;
  Fee : list byte;
  ConfirmationBlockNumber : N;      (* uint32 *)
  BlobInclusionProof : list byte;
  CommitmentRoot : list byte;
  Length : N;
  BlobQuorumInfos : list Core.BlobQuorumInfo;
  QuorumResults : gmap N Core.QuorumResult
}.

(** A metadata record; the two pointer fields are absent when [None]. *)
Record BlobMetadata : Type := mkBlobMetadata {
  BlobHash : gostring;
  MetadataHash : gostring;
  Status : BlobStatus;
  NumRetries : N;                   (* uint *)
  Expiry : N;                       (* uint64, unix seconds *)
  Request : option RequestMetadata;
  Confirmation : option ConfirmationInfo
}.

Definition GetBlobKey (m : BlobMetadata) : BlobKey :=
  mkBlobKey (BlobHash m) (MetadataHash m).

Definition withStatus (m : BlobMetadata) (s : BlobStatus) : BlobMetadata :=
  mkBlobMetadata (BlobHash m) (MetadataHash m) s (NumRetries m) (Expiry m)
                 (Request m) (Confirmation m).

Definition withNumRetries (m : BlobMetadata) (n : N) : BlobMetadata :=
  mkBlobMetadata (BlobHash m) (MetadataHash m) (Status m) n (Expiry m)
                 (Request m) (Confirmation m).
End Disperser.

(* ===================================================================== *)
(** * package blobstore: the shared blob store *)
(* ===================================================================== *)

Module Blobstore.
Import Core Disperser.

(** The object store: objects by key, and whether the service answers. *)
Record S3Client : Type := mkS3 {
  objects : gmap gostring (list byte);
  s3_up : bool
}.

(** The metadata table, keyed by [(BlobHash, MetadataHash)]. *)
Record BlobMetadataStore : Type := mkMetadataStore {
  table : gmap (gostring * gostring) BlobMetadata;
  ttl : Z;                          (* time.Duration *)
  table_up : bool
}.

Record SharedBlobStore : Type := mkSharedBlobStore {
  s3Client : S3Client;
  blobMetadataStore : BlobMetadataStore;
  metadataHashAsBlobKey : bool
}.

Definition errStorage : error := lit "storage unavailable".
Definition errNotFound : error := lit "metadata not found".

Definition keyOf (k : BlobKey) : gostring * gostring :=
  (KeyBlobHash k, KeyMetadataHash k).

(** Modelled from the spec: the object store maps a key to opaque bytes;
    an upload either stores the object or fails. *)
Definition UploadObject (c : S3Client) (key : gostring) (data : list byte)
  : S3Client * option error :=
  if s3_up c then (mkS3 (<[key := data]> (objects c)) (s3_up c), None)
  else (c, Some errStorage).

(** Modelled from the spec: the operations of the metadata index that the
    store calls (a keyed write, a point lookup, the status-only transition
    and the increment of the retry counter). *)
Definition QueueNewBlobMetadata (ms : BlobMetadataStore) (m : BlobMetadata)
  : BlobMetadataStore * option error :=
  if table_up ms
  then (mkMetadataStore (<[keyOf (GetBlobKey m) := m]> (table ms))
                        (ttl ms) (table_up ms), None)
  else (ms, Some errStorage).

Definition StoreGetBlobMetadata (ms : BlobMetadataStore) (k : BlobKey)
  : option BlobMetadata * option error :=
  if table_up ms then
    match table ms !! keyOf k with
    | Some m => (Some m, None)
    | None => (None, Some errNotFound)
    end
  else (None, Some errStorage).

Definition alterRecord (ms : BlobMetadataStore) (k : BlobKey)
           (f : BlobMetadata -> BlobMetadata)
  : BlobMetadataStore * option error :=
  if table_up ms then
    match table ms !! keyOf k with
    | Some m => (mkMetadataStore (<[keyOf k := f m]> (table ms))
                                 (ttl ms) (table_up ms), None)
    | None => (ms, Some errNotFound)
    end
  else (ms, Some errStorage).

Definition SetBlobStatus (ms : BlobMetadataStore) (k : BlobKey)
           (s : BlobStatus) : BlobMetadataStore * option error :=
  alterRecord ms k (fun m => withStatus m s).

Definition IncrementNumRetries (ms : BlobMetadataStore) (m : BlobMetadata)
  : BlobMetadataStore * option error :=
  alterRecord ms (GetBlobKey m)
              (fun r => withNumRetries r ((NumRetries r + 1) mod 2 ^ 64)%N).

Definition withMetadataStore (s : SharedBlobStore) (ms : BlobMetadataStore)
  : SharedBlobStore :=
  mkSharedBlobStore (s3Client s) ms (metadataHashAsBlobKey s).

Definition withS3 (s : SharedBlobStore) (c : S3Client) : SharedBlobStore :=
  mkSharedBlobStore c (blobMetadataStore s) (metadataHashAsBlobKey s).

(** [getMetadataHash]: the loop grows [str] by one formatted pair per
    security parameter; the result is the hex form of what [Sum] returns
    on a fresh digest. *)
Definition getMetadataHash (requestedAt : N) (securityParams : list SecurityParam)
  : outcome error gostring :=
  let str :=
    fold_left (fun str param =>
                 str ++ (Fmt.d (QuorumID param) ++ lit "/" ++
                         Fmt.d (AdversaryThreshold param) ++ lit "/"))
              securityParams
              (Fmt.d requestedAt ++ lit "/") in
  let bytes := str in
  Ok (Hex.EncodeToString (Sha256.Sum Sha256.New bytes)).

Definition blobObjectKey (blobHash : gostring) : gostring :=
  lit "blob/" ++ blobHash ++ lit ".json".

Definition getBlobHash (blob : Blob) : gostring :=
  let hasher := Sha256.Write Sha256.New (Data blob) in
  let hash := Sha256.Sum hasher [] in
  Hex.EncodeToString hash.

(** Seconds of the Unix time of an instant given in nanoseconds. *)
Definition Unix (t : Z) : Z := t / 1000000000.

(** [StoreBlob]; [now] is the reading of the clock taken for the expiry. *)
Definition StoreBlob (s : SharedBlobStore) (blob : option Blob)
           (requestedAt : N) (now : Z)
  : SharedBlobStore * outcome error BlobKey :=
  match blob with
  | None => (s, Err (lit "blob is nil"))
  | Some blob =>
      let blobHash := getBlobHash blob in
      match getMetadataHash requestedAt (SecurityParams (RequestHeader blob)) with
      | Err e => (s, Err e)
      | Panic => (s, Panic)
      | Ok metadataHash =>
          let metadataKey := mkBlobKey blobHash metadataHash in
          let '(c, err) :=
            if metadataHashAsBlobKey s
            then UploadObject (s3Client s) metadataHash (Data blob)
            else UploadObject (s3Client s) (blobObjectKey blobHash) (Data blob) in
          match err with
          | Some e => (withS3 s c, Err e)
          | None =>
              let s1 := withS3 s c in
              let expiry :=
                if (0 <? ttl (blobMetadataStore s1))
                then Z.to_N (uint64 (Unix (now + ttl (blobMetadataStore s1))))
                else 0%N in
              let metadata :=
                mkBlobMetadata blobHash metadataHash Processing 0 expiry
                  (Some (mkRequestMetadata (RequestHeader blob)
                           (N.of_nat (length (Data blob))) requestedAt))
                  None in
              let '(ms, err) := QueueNewBlobMetadata (blobMetadataStore s1) metadata in
              match err with
              | Some e => (withMetadataStore s1 ms, Err e)
              | None => (withMetadataStore s1 ms, Ok metadataKey)
              end
          end
      end
  end.

Definition GetBlobMetadata (s : SharedBlobStore) (metadataKey : BlobKey)
  : option BlobMetadata * option error :=
  StoreGetBlobMetadata (blobMetadataStore s) metadataKey.

Definition MarkBlobFinalized (s : SharedBlobStore) (metadataKey : BlobKey)
  : SharedBlobStore * option error :=
  let '(ms, err) := SetBlobStatus (blobMetadataStore s) metadataKey Finalized in
  (withMetadataStore s ms, err).

Definition MarkBlobProcessing (s : SharedBlobStore) (metadataKey : BlobKey)
  : SharedBlobStore * option error :=
  let '(ms, err) := SetBlobStatus (blobMetadataStore s) metadataKey Processing in
  (withMetadataStore s ms, err).

Definition MarkBlobFailed (s : SharedBlobStore) (metadataKey : BlobKey)
  : SharedBlobStore * option error :=
  let '(ms, err) := SetBlobStatus (blobMetadataStore s) metadataKey Failed in
  (withMetadataStore s ms, err).

Definition IncrementBlobRetryCount (s : SharedBlobStore)
           (existingMetadata : BlobMetadata)
  : SharedBlobStore * option error :=
  let '(ms, err) := IncrementNumRetries (blobMetadataStore s) existingMetadata in
  (withMetadataStore s ms, err).

(** [HandleBlobFailure]; [maxRetry] is a [uint]. *)
Definition HandleBlobFailure (s : SharedBlobStore) (metadata : BlobMetadata)
           (maxRetry : N) : SharedBlobStore * option error :=
  if (NumRetries metadata <? maxRetry)%N
  then IncrementBlobRetryCount s metadata
  else MarkBlobFailed s (GetBlobKey metadata).
(** Modelled from the spec: the rest of the object store (opaque bytes by
    key) and of the metadata index (keyed write and removal).  Deleting an
    object that is not there succeeds. *)
Definition errNoSuchKey : error := lit "no such key".

Definition DownloadObject (c : S3Client) (key : gostring)
  : outcome error (list byte) :=
  if s3_up c then
    match objects c !! key with
    | Some data => Ok data
    | None => Err errNoSuchKey
    end
  else Err errStorage.

Definition DeleteObject (c : S3Client) (key : gostring)
  : S3Client * option error :=
  if s3_up c then (mkS3 (delete key (objects c)) (s3_up c), None)
  else (c, Some errStorage).

Definition RemoveBlobMetadata (ms : BlobMetadataStore) (m : BlobMetadata)
  : BlobMetadataStore * option error :=
  if table_up ms
  then (mkMetadataStore (delete (keyOf (GetBlobKey m)) (table ms))
                        (ttl ms) (table_up ms), None)
  else (ms, Some errStorage).

Definition UpdateBlobMetadata (ms : BlobMetadataStore) (k : BlobKey)
           (m : BlobMetadata) : BlobMetadataStore * option error :=
  if table_up ms
  then (mkMetadataStore (<[keyOf k := m]> (table ms)) (ttl ms) (table_up ms), None)
  else (ms, Some errStorage).

(** [RemoveBlob]. *)
Definition RemoveBlob (s : SharedBlobStore) (metadata : BlobMetadata)
  : SharedBlobStore * option error :=
  let '(c, err) := DeleteObject (s3Client s) (MetadataHash metadata) in
  match err with
  | Some e => (withS3 s c, Some e)
  | None =>
      let s1 := withS3 s c in
      let '(ms, err) := RemoveBlobMetadata (blobMetadataStore s1) metadata in
      (withMetadataStore s1 ms, err)
  end.

(** [GetBlobContent]. *)
Definition GetBlobContent (s : SharedBlobStore) (metadata : BlobMetadata)
  : outcome error (list byte) :=
  if metadataHashAsBlobKey s
  then DownloadObject (s3Client s) (MetadataHash metadata)
  else DownloadObject (s3Client s) (blobObjectKey (BlobHash metadata)).

(** [MarkBlobConfirmed]; [now] is the reading of the clock.  The new
    metadata is returned beside the error of the update. *)
Definition MarkBlobConfirmed (s : SharedBlobStore)
           (existingMetadata : BlobMetadata)
           (confirmationInfo : ConfirmationInfo) (now : Z)
  : SharedBlobStore * BlobMetadata * option error :=
  let ttlFromNow := now + ttl (blobMetadataStore s) in
  let expiry :=
    if (Expiry existingMetadata <? Z.to_N (uint64 (Unix ttlFromNow)))%N
    then Z.to_N (uint64 (Unix ttlFromNow))
    else Expiry existingMetadata in
  let newMetadata :=
    mkBlobMetadata (BlobHash existingMetadata) (MetadataHash existingMetadata)
                   Confirmed (NumRetries existingMetadata) expiry
                   (Request existingMetadata) (Some confirmationInfo) in
  let '(ms, err) := UpdateBlobMetadata (blobMetadataStore s)
                                       (GetBlobKey existingMetadata)
                                       newMetadata in
  (withMetadataStore s ms, newMetadata, err).

(** What a worker of [GetBlobsByMetadata] sends on the channel for one
    metadata: [getBlobContentParallel] on its key and request header.
    [Panic] is the fault of reading the header through a nil
    [RequestMetadata]. *)
Definition getBlobContentParallel (s : SharedBlobStore) (m : BlobMetadata)
  : outcome error (BlobKey * Blob) :=
  match Request m with
  | None => Panic
  | Some rm =>
      let blobKey := GetBlobKey m in
      let r :=
        if metadataHashAsBlobKey s
        then DownloadObject (s3Client s) (KeyMetadataHash blobKey)
        else DownloadObject (s3Client s) (blobObjectKey (KeyBlobHash blobKey)) in
      match r with
      | Ok blob => Ok (blobKey, mkBlob (BlobRequestHeader rm) blob)
      | Err err => Err err
      | Panic => Panic
      end
  end.

(** The loop that collects the results from the channel. *)
Fixpoint collectBlobs (results : list (outcome error (BlobKey * Blob)))
         (blobs : gmap (gostring * gostring) Blob)
  : outcome error (gmap (gostring * gostring) Blob) :=
  match results with
  | [] => Ok blobs
  | Err err :: _ => Err err
  | Panic :: _ => Panic
  | Ok (blobKey, blob) :: rest =>
      collectBlobs rest (<[keyOf blobKey := blob]> blobs)
  end.

(** [GetBlobsByMetadata]; [completed] is the metadata in the order in which
    the workers sent their results, a permutation of the argument.  The
    header is read through [RequestMetadata] within the worker, whose fault
    stops the program whatever the other workers have sent. *)
Definition GetBlobsByMetadata (s : SharedBlobStore)
           (completed : list BlobMetadata)
  : outcome error (gmap (gostring * gostring) Blob) :=
  if forallb (fun m => bool_decide (is_Some (Request m))) completed
  then collectBlobs (map (getBlobContentParallel s) completed) ∅
  else Panic.
End Blobstore.

(* ===================================================================== *)
(** * package ratelimit: limiter.go *)
(* ===================================================================== *)

(** [common.KVStore[T]]: the two methods the limiter calls.  Both thread the
    store, since a store may change on a read as well (a cache, a log);
    [GetItem] yields [None] when its error is not nil. *)
Class KVStore (T S : Type) : Type := {
  GetItem : S -> gostring -> S * option T;
  UpdateItem : S -> gostring -> T -> S * option error
}.

Module Ratelimit.
(** [time.Duration] is an [int64] count of nanoseconds. *)
Definition Microsecond : Z := 1000.
Definition dadd (a b : Z) : Z := int64 (a + b).
Definition dsub (a b : Z) : Z := int64 (a - b).
Definition dmul (a b : Z) : Z := int64 (a * b).

(** [t.Sub(u)] on instants counted in nanoseconds: the difference,
    saturated to the range of a [Duration]. *)
Definition Sub (t u : Z) : Z := Z.max minInt64 (Z.min maxInt64 (t - u)).

Record RateBucketParams : Type := mkRateBucketParams {
  BucketLevels : list Z;
  LastRequestTime : Z
}.

(** The readings of [time.Now()] in one call of [AllowRequest], in the
    order of the source: for a fresh bucket, for [time.Since], and for the
    new [LastRequestTime]. *)
Record clock : Type := mkClock {
  nowFresh : Z;
  nowSince : Z;
  nowStamp : Z
}.

Definition getBucketLevel (bucketLevel bucketSize interval deduction : Z) : Z :=
  let newLevel := dsub (dadd bucketLevel interval) deduction in
  let newLevel := if newLevel <? 0 then 0 else newLevel in
  let newLevel := if newLevel >? bucketSize then bucketSize else newLevel in
  newLevel.

Section Limiter.
(** The type of the multipliers, and the value of
    [time.Duration(1e6*float32(blobSize)/float32(rate)/m)]: the float32
    quotient converted to an [int64]. *)
Variable float32 : Type.
Variable quotient : N -> N -> float32 -> Z.

Record GlobalRateParams : Type := mkGlobalRateParams {
  BucketSizes : list Z;
  Multipliers : list float32;
  CountFailed : bool
}.

Context {S : Type} `{KVStore RateBucketParams S}.

Record rateLimiter : Type := mkRateLimiter {
  globalRateParams : GlobalRateParams;
  bucketStore : S;
  allowlist : list gostring
}.

Definition withBucketStore (d : rateLimiter) (st : S) : rateLimiter :=
  mkRateLimiter (globalRateParams d) st (allowlist d).

(** The deduction of tier [i]. *)
Definition deduction (blobSize rate : N) (m : float32) : Z :=
  dmul Microsecond (quotient blobSize rate m).

(** The loop over [BucketSizes], from index [i] on; [None] is the
    run-time panic of an index out of range. *)
Fixpoint updateLevels (p : GlobalRateParams) (blobSize rate : N)
         (interval : Z) (i : nat) (sizes : list Z)
         (levels : list Z) (allowed : bool) : option (list Z * bool) :=
  match sizes with
  | [] => Some (levels, allowed)
  | size :: sizes' =>
      match Multipliers p !! i with
      | None => None
      | Some m =>
          match levels !! i with
          | None => None
          | Some level =>
              let level' :=
                getBucketLevel level size interval (deduction blobSize rate m) in
              updateLevels p blobSize rate interval (Datatypes.S i) sizes'
                           (<[i := level']> levels)
                           (allowed && (0 <? level'))
          end
      end
  end.

(** [AllowRequest]: [Ok allowed] is [(allowed, nil)], [Err (allowed, e)]
    is [(allowed, e)]. *)
Definition AllowRequest (d : rateLimiter) (clk : clock)
           (requesterID : gostring) (blobSize : N) (rate : N)
  : rateLimiter * outcome (bool * error) bool :=
  if existsb (fun id => Strings.Contains requesterID id) (allowlist d)
  then (d, Ok true)
  else
    let '(st1, item) := GetItem (bucketStore d) requesterID in
    let bucketParams :=
      match item with
      | Some bp => bp
      | None => mkRateBucketParams (BucketSizes (globalRateParams d))
                                   (nowFresh clk)
      end in
    let interval := Sub (nowSince clk) (LastRequestTime bucketParams) in
    match updateLevels (globalRateParams d) blobSize rate interval 0
                       (BucketSizes (globalRateParams d))
                       (BucketLevels bucketParams) true with
    | None => (withBucketStore d st1, Panic)
    | Some (levels, allowed) =>
        let bucketParams' := mkRateBucketParams levels (nowStamp clk) in
        if allowed || CountFailed (globalRateParams d) then
          let '(st2, err) := UpdateItem st1 requesterID bucketParams' in
          match err with
          | Some e => (withBucketStore d st2, Err (allowed, e))
          | None => (withBucketStore d st2, Ok allowed)
          end
        else (withBucketStore d st1, Ok allowed)
    end.
End Limiter.

(** A bucket store in memory that also records the calls made on it. *)
Inductive access : Type :=
| Read (key : gostring)
| Written (key : gostring) (v : RateBucketParams).

Record LocalStore : Type := mkLocalStore {
  items : gmap gostring RateBucketParams;
  journal : list access
}.

#[global] Instance LocalStore_KVStore : KVStore RateBucketParams LocalStore := {
  GetItem st key :=
    (mkLocalStore (items st) (journal st ++ [Read key]), items st !! key);
  UpdateItem st key v :=
    (mkLocalStore (<[key := v]> (items st)) (journal st ++ [Written key v]), None)
}.
End Ratelimit.

(* ===================================================================== *)
(** * package apiserver: the dispersal server *)
(* ===================================================================== *)

Module Pb.
Inductive BlobStatus : Type :=
| BlobStatus_UNKNOWN
| BlobStatus_PROCESSING
| BlobStatus_CONFIRMED
| BlobStatus_FAILED
| BlobStatus_FINALIZED
| BlobStatus_INSUFFICIENT_SIGNATURES.

Record SecurityParams : Type := mkSecurityParams {
  QuorumId : N;                     (* uint32 *)
  AdversaryThreshold : N;           (* uint32 *)
  QuorumThreshold : N               (* uint32 *)
}.

Record DisperseBlobRequest : Type := mkDisperseBlobRequest {
  Data : list byte;
  ReqSecurityParams : list SecurityParams;
  TargetRowNum : N
}.

Record DisperseBlobReply : Type := mkDisperseBlobReply {
  Result : BlobStatus;
  RequestId : list byte
}.

Record BlobQuorumParam : Type := mkBlobQuorumParam {
  QuorumNumber : N;
  AdversaryThresholdPercentage : N;
  QuorumThresholdPercentage : N;
  ChunkLength : N
}.

Record BlobHeader : Type := mkBlobHeader {
  CommitmentRoot : list byte;
  DataLength : N;
  BlobQuorumParams : list BlobQuorumParam
}.

Record BatchHeader : Type := mkBatchHeader {
  BatchRoot : list byte;
  QuorumNumbers : list byte;
  QuorumSignedPercentages : list byte;
  ReferenceBlockNumber : N
}.

Record BatchMetadata : Type := mkBatchMetadata {
  Header : BatchHeader;
  SignatoryRecordHash : list byte;
  Fee : list byte;
  ConfirmationBlockNumber : N;
  BatchHeaderHash : list byte
}.

Record BlobVerificationProof : Type := mkBlobVerificationProof {
  BatchId : N;
  BlobIndex : N;
  Metadata : BatchMetadata;
  InclusionProof : list byte;
  QuorumIndexes : list byte
}.

Record BlobInfo : Type := mkBlobInfo {
  InfoBlobHeader : option BlobHeader;
  InfoBlobVerificationProof : option BlobVerificationProof
}.

Record BlobStatusReply : Type := mkBlobStatusReply {
  Status : BlobStatus;
  Info : BlobInfo
}.
Record RetrieveBlobRequest : Type := mkRetrieveBlobRequest {
  ReqBatchHeaderHash : list byte;
  ReqBlobIndex : N                  (* uint32 *)
}.

Record RetrieveBlobReply : Type := mkRetrieveBlobReply {
  ReplyData : list byte
}.
End Pb.

Module Apiserver.
Import Blobstore.

(** The storage cluster's KV node: values by stream and key, and whether
    the node answers.  A key without value reads as empty data. *)
Record KVClient : Type := mkKVClient {
  kv_values : gmap (gostring * gostring) (list byte);
  kv_up : bool
}.

Definition GetValue (c : KVClient) (streamId key : gostring)
  : outcome error (list byte) :=
  if kv_up c then Ok (default [] (kv_values c !! (streamId, key)))
  else Err (lit "kv node unavailable").

(** The two readings of the clock in one [DisperseBlob]: the Unix
    nanoseconds taken as [requestedAt], and the instant [StoreBlob] reads
    for the expiry. *)
Record clock : Type := mkClock {
  nowRequest : Z;
  nowStore : Z
}.

Definition getResponseStatus (status : Disperser.BlobStatus) : Pb.BlobStatus :=
  match status with
  | Disperser.Processing => Pb.BlobStatus_PROCESSING
  | Disperser.Confirmed => Pb.BlobStatus_CONFIRMED
  | Disperser.Failed => Pb.BlobStatus_FAILED
  | Disperser.Finalized => Pb.BlobStatus_FINALIZED
  | Disperser.InsufficientSignatures => Pb.BlobStatus_INSUFFICIENT_SIGNATURES
  end.

Definition getBlobFromRequest (req : Pb.DisperseBlobRequest) : Core.Blob :=
  let params :=
    map (fun param =>
           Core.mkSecurityParam
             (Pb.QuorumId param mod 2 ^ 8)%N
             (Pb.AdversaryThreshold param mod 2 ^ 8)%N
             (Pb.QuorumThreshold param mod 2 ^ 8)%N)
        (Pb.ReqSecurityParams req) in
  Core.mkBlob (Core.mkBlobRequestHeader params (Pb.TargetRowNum req))
              (Pb.Data req).

Section Server.
(** Declared outside the files at hand and taken as parameters: the
    constant [core.MaxBlobSize], [common.GetClientAddress] over the
    request context, [disperser.ParseBlobKey], the methods [IsConfirmed]
    (whose receiver may be nil) and [Deserialize] of [BlobMetadata]; and
    the limiter's parameters. *)
Variable MaxBlobSize : N.
Variable context : Type.
Variable GetClientAddress : context -> gostring -> Z -> bool -> outcome error gostring.
Variable ParseBlobKey : gostring -> outcome error Disperser.BlobKey.
Variable IsConfirmed : option Disperser.BlobMetadata -> outcome error bool.
Variable Deserialize : list byte -> outcome error Disperser.BlobMetadata.
Variable float32 : Type.
Context {S : Type} `{KVStore Ratelimit.RateBucketParams S}.

Record DispersalServer : Type := mkDispersalServer {
  blobStore : SharedBlobStore;
  ClientIPHeader : gostring;                       (* rateConfig *)
  ratelimiter : option (Ratelimit.rateLimiter float32 (S := S));
  metadataHashAsBlobKey : bool;
  KVNode : KVClient;
  StreamId : gostring;
  latestFinalizedBlock : N                         (* uint32 *)
}.

Definition withBlobStore (s : DispersalServer) (b : SharedBlobStore)
  : DispersalServer :=
  mkDispersalServer b (ClientIPHeader s) (ratelimiter s)
                    (metadataHashAsBlobKey s) (KVNode s) (StreamId s)
                    (latestFinalizedBlock s).

(** [DisperseBlob]. *)
Definition DisperseBlob (s : DispersalServer) (ctx : context) (clk : clock)
           (req : Pb.DisperseBlobRequest)
  : DispersalServer * outcome error Pb.DisperseBlobReply :=
  let blobSize := N.of_nat (length (Pb.Data req)) in
  if (MaxBlobSize <? blobSize)%N then
    (s, Err (lit "blob size cannot exceed " ++ Fmt.d (MaxBlobSize / 1024)%N
               ++ lit " KiB"))
  else if (blobSize =? 0)%N then
    (s, Err (lit "blob size must be greater than 0"))
  else
    let blob := getBlobFromRequest req in
    match GetClientAddress ctx (ClientIPHeader s) 2 true with
    | Err err => (s, Err err)
    | Panic => (s, Panic)
    | Ok origin =>
        let requestedAt := Z.to_N (uint64 (nowRequest clk)) in
        let '(b, r) := StoreBlob (blobStore s) (Some blob) requestedAt (nowStore clk) in
        match r with
        | Err err => (withBlobStore s b, Err err)
        | Panic => (withBlobStore s b, Panic)
        | Ok metadataKey =>
            (withBlobStore s b,
             Ok (Pb.mkDisperseBlobReply Pb.BlobStatus_PROCESSING
                                        (Disperser.String metadataKey)))
        end
    end.

(** [getMetadataFromKv]: [Ok None] is [(nil, nil)]. *)
Definition getMetadataFromKv (s : DispersalServer) (key : list byte)
  : outcome error (option Disperser.BlobMetadata) :=
  match GetValue (KVNode s) (StreamId s) key with
  | Err err => Err (lit "failed to get blob metadata from kv node: " ++ err)
  | Panic => Panic
  | Ok val =>
      if (length val =? 0)%nat then Ok None
      else match Deserialize val with
           | Err err => Err (lit "failed to deserialize blob metadata: " ++ err)
           | Panic => Panic
           | Ok metadata => Ok (Some metadata)
           end
  end.

(** The arrays built by the loop over the quorum infos; [None] is the
    fault of reading the field of a quorum result that is not there. *)
Fixpoint quorumArrays (results : gmap N Core.QuorumResult) (i : nat)
         (quorumInfos : list Core.BlobQuorumInfo)
  : option (list Pb.BlobQuorumParam * list byte * list byte * list byte) :=
  match quorumInfos with
  | [] => Some ([], [], [], [])
  | quorumInfo :: rest =>
      let id := Core.QuorumID (Core.Param quorumInfo) in
      match results !! id with
      | None => None
      | Some res =>
          match quorumArrays results (Datatypes.S i) rest with
          | None => None
          | Some (params, numbers, signed, indexes) =>
              Some (Pb.mkBlobQuorumParam
                      (id mod 2 ^ 32)%N
                      (Core.AdversaryThreshold (Core.Param quorumInfo) mod 2 ^ 32)%N
                      (Core.QuorumThreshold (Core.Param quorumInfo) mod 2 ^ 32)%N
                      (Core.ChunkLength quorumInfo mod 2 ^ 32)%N :: params,
                    byte_of_N id :: numbers,
                    byte_of_N (Core.PercentSigned res) :: signed,
                    byte_of_N (N.of_nat i) :: indexes)
          end
      end
  end.

(** The second half of [GetBlobStatus]: the reply for the metadata that
    was settled on. *)
Definition statusReply (metadata : option Disperser.BlobMetadata)
  : outcome error Pb.BlobStatusReply :=
  match IsConfirmed metadata with
  | Err err => Err err
  | Panic => Panic
  | Ok isConfirmed =>
      match metadata with
      | None => Panic
      | Some m =>
          if isConfirmed then
            match Disperser.Confirmation m with
            | None => Panic
            | Some ci =>
                match quorumArrays (Disperser.QuorumResults ci) 0
                                   (Disperser.BlobQuorumInfos ci) with
                | None => Panic
                | Some (blobQuorumParams, quorumNumbers,
                        quorumPercentSigned, quorumIndexes) =>
                    Ok (Pb.mkBlobStatusReply
                          (getResponseStatus (Disperser.Status m))
                          (Pb.mkBlobInfo
                             (Some (Pb.mkBlobHeader
                                      (Disperser.CommitmentRoot ci)
                                      (Disperser.Length ci mod 2 ^ 32)%N
                                      blobQuorumParams))
                             (Some (Pb.mkBlobVerificationProof
                                      (Disperser.BatchID ci)
                                      (Disperser.BlobIndex ci)
                                      (Pb.mkBatchMetadata
                                         (Pb.mkBatchHeader
                                            (Disperser.BatchRoot ci)
                                            quorumNumbers
                                            quorumPercentSigned
                                            (Disperser.ReferenceBlockNumber ci))
                                         (Disperser.SignatoryRecordHash ci)
                                         (Disperser.Fee ci)
                                         (Disperser.ConfirmationBlockNumber ci)
                                         (Disperser.BatchHeaderHash ci))
                                      (Disperser.BlobInclusionProof ci)
                                      quorumIndexes))))
                end
            end
          else
            Ok (Pb.mkBlobStatusReply (getResponseStatus (Disperser.Status m))
                                     (Pb.mkBlobInfo None None))
      end
  end.

(** Whether the record of the primary store is to be replaced by the
    KV's: it is nil, or its key does not print as the request id. *)
Definition missOrMismatch (metadata : option Disperser.BlobMetadata)
           (requestID : list byte) : bool :=
  match metadata with
  | None => true
  | Some m =>
      negb (bool_decide (Disperser.String (Disperser.GetBlobKey m) = requestID))
  end.

(** [metadataInKV] of [GetBlobStatus]: what [getMetadataFromKv] returned
    beside its error, which is only logged. *)
Definition kvRecord (s : DispersalServer) (requestID : list byte)
  : option Disperser.BlobMetadata :=
  match getMetadataFromKv s requestID with
  | Ok metadata => metadata
  | Err _ => None
  | Panic => None
  end.

(** [&disperser.BlobMetadata{BlobStatus: disperser.Processing}]. *)
Definition processingOnly : Disperser.BlobMetadata :=
  Disperser.mkBlobMetadata [] [] Disperser.Processing 0 0 None None.

(** The fallback on the KV; [None] is the fault of reading
    [ConfirmationBlockNumber] through a nil [ConfirmationInfo]. *)
Definition kvFallback (s : DispersalServer) (requestID : list byte)
  : option Disperser.BlobMetadata :=
  match kvRecord s requestID with
  | Some metadata =>
      match Disperser.Confirmation metadata with
      | None => None
      | Some ci =>
          if (Disperser.ConfirmationBlockNumber ci <=? latestFinalizedBlock s)%N
          then Some (Disperser.withStatus metadata Disperser.Finalized)
          else Some metadata
      end
  | None => Some processingOnly
  end.

(** [GetBlobStatus]. *)
Definition GetBlobStatus (s : DispersalServer) (requestID : list byte)
  : outcome error Pb.BlobStatusReply :=
  if (length requestID =? 0)%nat then
    Err (lit "invalid request: request_id must not be empty")
  else
    match ParseBlobKey requestID with
    | Err err => Err err
    | Panic => Panic
    | Ok metadataKey =>
        let '(metadata, err) := GetBlobMetadata (blobStore s) metadataKey in
        match err, metadataHashAsBlobKey s with
        | Some e, false => Err e
        | _, mode =>
            if missOrMismatch metadata requestID && mode
            then match kvFallback s requestID with
                 | None => Panic
                 | Some m => statusReply (Some m)
                 end
            else statusReply metadata
        end
    end.

End Server.

Section Retrieval.
(** Declared outside the files at hand: the lookup of the metadata index by
    batch coordinate, behind [SharedBlobStore.GetMetadataInBatch]. *)
Variable GetBlobMetadataInBatch :
  BlobMetadataStore -> list byte -> N -> outcome error Disperser.BlobMetadata.
Variable float32 : Type.
Context {S : Type} `{KVStore Ratelimit.RateBucketParams S}.

(** [copy(batchHeaderHash32[:], batchHeaderHash)] into a zeroed array. *)
Definition toArray32 (batchHeaderHash : list byte) : list byte :=
  Core.copyInto (repeat x00 32) batchHeaderHash.

(** [RetrieveBlob]. *)
Definition RetrieveBlob (s : DispersalServer float32 (S := S))
           (req : Pb.RetrieveBlobRequest)
  : outcome error Pb.RetrieveBlobReply :=
  let batchHeaderHash32 := toArray32 (Pb.ReqBatchHeaderHash req) in
  let blobIndex := Pb.ReqBlobIndex req in
  match GetBlobMetadataInBatch (blobMetadataStore (blobStore float32 s))
                               batchHeaderHash32 blobIndex with
  | Err err => Err err
  | Panic => Panic
  | Ok blobMetadata =>
      match GetBlobContent (blobStore float32 s) blobMetadata with
      | Err err => Err err
      | Panic => Panic
      | Ok data => Ok (Pb.mkRetrieveBlobReply data)
      end
  end.

Definition withLatestFinalizedBlock (s : DispersalServer float32 (S := S))
           (n : N) : DispersalServer float32 (S := S) :=
  mkDispersalServer float32 (blobStore float32 s) (ClientIPHeader float32 s)
                    (ratelimiter float32 s) (metadataHashAsBlobKey float32 s)
                    (KVNode float32 s) (StreamId float32 s) n.

(** [UpdateLatestFinalizedBlock]; [header] is what the call
    [eth_getBlockByNumber("finalized")] yields: an error, or the header's
    [Number], [None] when it is nil.  [Ok s'] is the server after a return
    without error; on [Err] the server is as it was. *)
Definition UpdateLatestFinalizedBlock (s : DispersalServer float32 (S := S))
           (header : outcome error (option N))
  : outcome error (DispersalServer float32 (S := S)) :=
  match header with
  | Err err => Err err
  | Panic => Panic
  | Ok None => Panic
  | Ok (Some number) =>
      let number32 := ((number mod 2 ^ 64) mod 2 ^ 32)%N in
      if (latestFinalizedBlock float32 s <? number32)%N
      then Ok (withLatestFinalizedBlock s number32)
      else Ok s
  end.

(** The loop that [Start] launches in the mode of the metadata hash as
    blob key: one update per answer of the chain; an error is logged and
    the loop goes on.  [None] is a panic. *)
Fixpoint mirrorFinalized (s : DispersalServer float32 (S := S))
         (headers : list (outcome error (option N)))
  : option (DispersalServer float32 (S := S)) :=
  match headers with
  | [] => Some s
  | header :: rest =>
      match UpdateLatestFinalizedBlock s header with
      | Ok s' => mirrorFinalized s' rest
      | Err _ => mirrorFinalized s rest
      | Panic => None
      end
  end.
End Retrieval.
End Apiserver.

(* ===================================================================== *)
(** * The statements of the specification, in their own words *)
(* ===================================================================== *)

Module Spec.
(** The ABI encoding of a value of type [bytes32]: the bytes, padded on
    the right to one word. *)
Definition enc_bytes32 (b : list byte) : list byte :=
  b ++ repeat x00 (32 - length b).

(** The ABI encoding of a [uint32]: big-endian in one word, padded on the
    left. *)
Definition enc_uint32 (n : N) : list byte :=
  repeat x00 28 ++
  [ byte_of_N (n / 2 ^ 24); byte_of_N (n / 2 ^ 16);
    byte_of_N (n / 2 ^ 8); byte_of_N n ].

(** The ABI encoding of the static tuple
    [(bytes32 blobHeadersRoot, uint32 referenceBlockNumber)]. *)
Definition abi_encode (blobHeadersRoot : list byte) (referenceBlockNumber : N)
  : list byte :=
  enc_bytes32 blobHeadersRoot ++ enc_uint32 referenceBlockNumber.

(** The string hashed into a metadata hash: ["<requestedAtNs>/"] followed
    by ["<QuorumID>/<AdversaryThreshold>/"] for each security parameter
    in order. *)
Definition metadataString (requestedAtNs : N)
           (securityParams : list Core.SecurityParam) : gostring :=
  (Fmt.d requestedAtNs ++ lit "/") ++
  flat_map (fun p => Fmt.d (Core.QuorumID p) ++ lit "/" ++
                     Fmt.d (Core.AdversaryThreshold p) ++ lit "/")
           securityParams.

(** SHA-256 of a message. *)
Definition sha256 (msg : list byte) : list byte :=
  Sha256.Sum (Sha256.Write Sha256.New msg) [].

(** [clamp x lo hi]. *)
Definition clamp (x lo hi : Z) : Z := Z.min hi (Z.max lo x).


(** The value of a hexadecimal digit. *)
Definition hexValue (c : byte) : N :=
  match List.find (fun p : N * byte => bool_decide (snd p = c))
                  (combine (map N.of_nat (seq 0 16)) Hex.hextable) with
  | Some p => fst p
  | None => 0
  end.

Definition decode_pair (hi lo : byte) : byte :=
  byte_of_N (hexValue hi * 16 + hexValue lo).

(** The separator of the fields of a metadata string. *)
Definition slash : byte := "/"%byte.

(** The two fields of a security parameter that reach the key. *)
Definition hashedFields (p : Core.SecurityParam) : N * N :=
  (Core.QuorumID p, Core.AdversaryThreshold p).

Definition formatFields (qa : N * N) : gostring :=
  Fmt.d (fst qa) ++ lit "/" ++ Fmt.d (snd qa) ++ lit "/".

(** Every quorum of the confirmation has its result. *)
Definition resultsComplete (ci : Disperser.ConfirmationInfo) : Prop :=
  Forall (fun qi => is_Some (Disperser.QuorumResults ci
                               !! Core.QuorumID (Core.Param qi)))
         (Disperser.BlobQuorumInfos ci).

(** The boolean that [AllowRequest] returns, if it returns. *)
Definition returned (r : outcome (bool * error) bool) : option bool :=
  match r with
  | Ok allowed => Some allowed
  | Err (allowed, _) => Some allowed
  | Panic => None
  end.

Section Tiers.
Variable float32 : Type.
Variable quotient : N -> N -> float32 -> Z.

(** The level of a tier after a request, as the specification has it; the
    sum and the difference are those of [time.Duration]. *)
Definition newLevel (blobSize rate : N) (interval : Z)
           (level size : Z) (m : float32) : Z :=
  clamp
    (int64 (level + interval
            - int64 (Ratelimit.Microsecond * quotient blobSize rate m)))
    0 size.

Fixpoint newLevels (blobSize rate : N) (interval : Z)
         (levels sizes : list Z) (ms : list float32) : list Z :=
  match levels, sizes, ms with
  | level :: levels', size :: sizes', m :: ms' =>
      newLevel blobSize rate interval level size m
      :: newLevels blobSize rate interval levels' sizes' ms'
  | _, _, _ => []
  end.

(** The bucket a request starts from: the stored one, or a full one. *)
Definition startingBucket (p : Ratelimit.GlobalRateParams float32)
           (clk : Ratelimit.clock) (item : option Ratelimit.RateBucketParams)
  : Ratelimit.RateBucketParams :=
  match item with
  | Some bp => bp
  | None => Ratelimit.mkRateBucketParams (Ratelimit.BucketSizes float32 p)
                                         (Ratelimit.nowFresh clk)
  end.
End Tiers.

(** A digit of lower-case hexadecimal. *)
Definition isHexDigit (c : byte) : bool :=
  existsb (fun h => bool_decide (h = c)) Hex.hextable.

(** The key under which the object of a record lies, by mode. *)
Definition objectKey (mode : bool) (m : Disperser.BlobMetadata) : gostring :=
  if mode then Disperser.MetadataHash m
  else Blobstore.blobObjectKey (Disperser.BlobHash m).

(** Every record of the metadata table has its object in the object
    store. *)
Definition recordsHaveObjects (s : Blobstore.SharedBlobStore) : Prop :=
  forall key m,
    Blobstore.table (Blobstore.blobMetadataStore s) !! key = Some m ->
    is_Some (Blobstore.objects (Blobstore.s3Client s)
               !! objectKey (Blobstore.metadataHashAsBlobKey s) m).

(** [n] failures in a row of the blob under key [k], each handled on the
    record as the table then has it. *)
Fixpoint failures (n : nat) (s : Blobstore.SharedBlobStore)
         (k : Disperser.BlobKey) (maxRetry : N) : Blobstore.SharedBlobStore :=
  match n with
  | O => s
  | Datatypes.S n' =>
      match Blobstore.table (Blobstore.blobMetadataStore s)
              !! Blobstore.keyOf k with
      | Some m => failures n' (fst (Blobstore.HandleBlobFailure s m maxRetry))
                           k maxRetry
      | None => s
      end
  end.
End Spec.

(* ===================================================================== *)
(** * Instances of the parameters, and small servers *)
(* ===================================================================== *)

Module Demo.
Import Core Disperser Blobstore.

Definition MaxBlobSize : N := 1024.

(** The context is the address of the peer; an empty one does not resolve. *)
Definition GetClientAddress (ctx header : gostring) (numProxies : Z)
           (allowDirect : bool) : outcome error gostring :=
  if (length ctx =? 0)%nat then Err (lit "unknown client address") else Ok ctx.

(** Multipliers that are whole numbers, and the quotient without rounding
    error. *)
Definition quotient (blobSize rate m : N) : Z :=
  Z.of_N (1000000 * blobSize / rate / m).

Fixpoint dashSplit (s acc : gostring) : option (gostring * gostring) :=
  match s with
  | [] => None
  | c :: s' =>
      if bool_decide (c = "-"%byte) then Some (List.rev acc, s')
      else dashSplit s' (c :: acc)
  end.

Definition ParseBlobKey (requestID : gostring) : outcome error BlobKey :=
  match dashSplit requestID [] with
  | Some (h, m) => Ok (mkBlobKey h m)
  | None => Err (lit "invalid blob key")
  end.

Definition IsConfirmed (metadata : option BlobMetadata) : outcome error bool :=
  match metadata with
  | None => Err (lit "metadata is nil")
  | Some m =>
      Ok (match Status m with
          | Confirmed | Finalized => true
          | _ => false
          end)
  end.

Definition confirmedAt (blockNumber : N) : ConfirmationInfo :=
  mkConfirmationInfo 1 0 [] 0 [] [] [] blockNumber [] [] 1 [] ∅.

(** A two-byte format: the tag 1 is a confirmed record that lacks its
    confirmation, the tag 2 a confirmed record whose confirmation block
    number is the second byte. *)
Definition Deserialize (data : list byte) : outcome error BlobMetadata :=
  match data with
  | x01 :: _ =>
      Ok (mkBlobMetadata (lit "aa") (lit "bb") Confirmed 0 0 None None)
  | x02 :: n :: _ =>
      Ok (mkBlobMetadata (lit "aa") (lit "bb") Confirmed 0 0 None
                         (Some (confirmedAt (Byte.to_N n))))
  | _ => Err (lit "malformed record")
  end.

Definition origin : gostring := lit "10.0.0.1".

(** A limiter with one tier of one second whose bucket for [origin] has
    run empty. *)
Definition limiter : Ratelimit.rateLimiter N (S := Ratelimit.LocalStore) :=
  Ratelimit.mkRateLimiter N
    (Ratelimit.mkGlobalRateParams N [1000000000] [1%N] false)
    (Ratelimit.mkLocalStore
       {[ origin := Ratelimit.mkRateBucketParams [0] 0 ]} [])
    [].


(** A requester the store has not seen. *)
Definition stranger : gostring := lit "10.0.0.2".

Definition atZero : Ratelimit.clock := Ratelimit.mkClock 0 0 0.

Definition store (mode : bool) : SharedBlobStore :=
  mkSharedBlobStore (mkS3 ∅ true) (mkMetadataStore ∅ 0 true) mode.

Definition streamId : gostring := lit "f2bd".

(** A server with the limiter installed and nothing stored. *)
Definition server : Apiserver.DispersalServer N (S := Ratelimit.LocalStore) :=
  Apiserver.mkDispersalServer N (store false) (lit "x-real-ip") (Some limiter)
                              false (Apiserver.mkKVClient ∅ true) streamId 0.

(** A server in the mode of the metadata hash as blob key, whose primary
    store is empty and whose KV holds [value] under [requestID]. *)
Definition requestID : gostring := lit "aa-bb".

Definition kvServer (value : list byte) (finalized : N)
  : Apiserver.DispersalServer N (S := Ratelimit.LocalStore) :=
  Apiserver.mkDispersalServer N (store true) (lit "x-real-ip") None true
    (Apiserver.mkKVClient {[ (streamId, requestID) := value ]} true)
    streamId finalized.

Definition oneByte : Pb.DisperseBlobRequest :=
  Pb.mkDisperseBlobRequest (lit "a") [Pb.mkSecurityParams 0 25 50] 0.

Definition noByte : Pb.DisperseBlobRequest :=
  Pb.mkDisperseBlobRequest [] [Pb.mkSecurityParams 0 25 50] 0.

Definition DisperseBlob :=
  Apiserver.DisperseBlob MaxBlobSize gostring GetClientAddress N
                         (S := Ratelimit.LocalStore).

Definition GetBlobStatus :=
  Apiserver.GetBlobStatus ParseBlobKey IsConfirmed Deserialize N
                          (S := Ratelimit.LocalStore).

Definition emptyStore : SharedBlobStore := store false.

Definition blobWithThreshold (quorumThreshold : N) : Blob :=
  mkBlob (mkBlobRequestHeader [mkSecurityParam 0 25 quorumThreshold] 0)
         (lit "a").

(** A record that has been retried twice, alone in its table. *)
Definition retriedTwice : BlobMetadata :=
  mkBlobMetadata (lit "aa") (lit "bb") Processing 2 0 None None.

Definition storeOf (m : BlobMetadata) : SharedBlobStore :=
  mkSharedBlobStore (mkS3 ∅ true)
                    (mkMetadataStore {[ keyOf (GetBlobKey m) := m ]} 0 true)
                    false.

(** A stand-in for the Merkle tree of the library: the tree is its list of
    leaves, of which there must be one at least, and its root the digest of
    their concatenation. *)
Definition NewTree (leafs : list (list byte)) : outcome error (list (list byte)) :=
  match leafs with
  | [] => Err (lit "tree must have at least 1 piece of data")
  | _ => Ok leafs
  end.

Definition Root (tree : list (list byte)) : list byte :=
  Keccak.Sum256 (concat tree).

(** Stores whose object store, or whose metadata table, does not answer. *)
Definition s3Down : SharedBlobStore :=
  mkSharedBlobStore (mkS3 ∅ false) (mkMetadataStore ∅ 0 true) false.

Definition tableDown : SharedBlobStore :=
  mkSharedBlobStore (mkS3 ∅ true) (mkMetadataStore ∅ 0 false) false.

(** A record that has not been retried. *)
Definition fresh : BlobMetadata :=
  mkBlobMetadata (lit "aa") (lit "bb") Processing 0 0 None None.

(** Two records with their requests, and a store in the mode of the
    metadata hash as blob key that holds the object of each. *)
Definition first : BlobMetadata :=
  mkBlobMetadata (lit "h1") (lit "m1") Processing 0 0
    (Some (mkRequestMetadata (mkBlobRequestHeader [] 1) 1 0)) None.

Definition second : BlobMetadata :=
  mkBlobMetadata (lit "h2") (lit "m2") Processing 0 0
    (Some (mkRequestMetadata (mkBlobRequestHeader [] 2) 1 0)) None.

Definition twoObjects : SharedBlobStore :=
  mkSharedBlobStore
    (mkS3 (<[lit "m1" := lit "x"]> {[ lit "m2" := lit "y" ]}) true)
    (mkMetadataStore ∅ 0 true) true.

(** The request [oneByte] with 256 added to each of its parameters. *)
Definition wide : Pb.DisperseBlobRequest :=
  Pb.mkDisperseBlobRequest (lit "a") [Pb.mkSecurityParams 256 281 306] 0.

(** The server [server] with another KV and another finalized block. *)
Definition otherKV : Apiserver.DispersalServer N (S := Ratelimit.LocalStore) :=
  Apiserver.mkDispersalServer N (store false) (lit "x-real-ip") (Some limiter)
    false (Apiserver.mkKVClient {[ (streamId, requestID) := [x02; x05] ]} true)
    streamId 9.

(** The server [server] over a blob store whose metadata table does not
    answer. *)
Definition tableDownServer
  : Apiserver.DispersalServer N (S := Ratelimit.LocalStore) :=
  Apiserver.mkDispersalServer N tableDown (lit "x-real-ip") (Some limiter)
                              false (Apiserver.mkKVClient ∅ true) streamId 0.

(** The index by batch coordinate: the first record of the table whose
    confirmation has the batch header hash and the blob index. *)
Definition GetBlobMetadataInBatch (ms : BlobMetadataStore)
           (batchHeaderHash : list byte) (blobIndex : N)
  : outcome error BlobMetadata :=
  if table_up ms then
    match List.find
            (fun m => match Confirmation m with
                      | Some ci =>
                          bool_decide (BatchHeaderHash ci = batchHeaderHash)
                          && (BlobIndex ci =? blobIndex)%N
                      | None => false
                      end)
            (map snd (map_to_list (table ms))) with
    | Some m => Ok m
    | None => Err errNotFound
    end
  else Err errStorage.

Definition RetrieveBlob :=
  Apiserver.RetrieveBlob GetBlobMetadataInBatch N (S := Ratelimit.LocalStore).

(** The confirmation of the blob of index 0 in the batch whose header
    hash is 32 bytes of value 1, confirmed at block 5. *)
Definition inBatch : ConfirmationInfo :=
  mkConfirmationInfo 1 0 [] 0 (repeat x01 32) [] [] 5 [] [] 1 [] ∅.

Definition finalizedAnswers : list (outcome error (option N)) :=
  [Ok (Some 5%N); Err (lit "timeout"); Ok (Some 3%N);
   Ok (Some (2 ^ 32 + 1)%N)].

(** The record of a key as the batcher holds it before the confirmation. *)
Definition recordOf (key : BlobKey) : BlobMetadata :=
  mkBlobMetadata (KeyBlobHash key) (KeyMetadataHash key) Processing 0 0
                 None None.


(** A limiter whose only tier has no size. *)
Definition noSize : Ratelimit.rateLimiter N (S := Ratelimit.LocalStore) :=
  Ratelimit.mkRateLimiter N
    (Ratelimit.mkGlobalRateParams N [0] [1%N] true)
    (Ratelimit.mkLocalStore ∅ [])
    [].
End Demo.

(* ===================================================================== *)
(** * Batch-header hash *)
(* ===================================================================== *)

Lemma RightPadBytes_enc (b : list byte) :
  Core.RightPadBytes b 32 = Spec.enc_bytes32 b.
Proof.
  unfold Core.RightPadBytes, Spec.enc_bytes32.
  destruct (Nat.leb_spec 32 (length b)) as [Hle | Hlt]; [|reflexivity].
  replace (32 - length b)%nat with 0%nat by lia.
  simpl. now rewrite app_nil_r.
Qed.

Lemma Encode_abi (h : Core.BatchHeader) :
  Core.Encode h = Ok (Spec.abi_encode (Core.BatchRoot h) 0).
Proof.
  unfold Core.Encode, Core.Pack, Spec.abi_encode.
  now rewrite RightPadBytes_enc.
Qed.

Lemma be_bytes_app (a b : nat) (v : N) :
  Core.be_bytes (a + b) v
  = Core.be_bytes b (N.shiftr v (8 * N.of_nat a)) ++ Core.be_bytes a v.
Proof.
  revert v. induction a as [|a IH]; intros v.
  - cbn [Nat.add Core.be_bytes]. now rewrite N.shiftr_0_r, app_nil_r.
  - cbn [Nat.add Core.be_bytes]. rewrite IH, N.shiftr_shiftr, <- app_assoc.
    do 3 f_equal. lia.
Qed.

(** The packing of the library is the ABI encoding, for every root and
    every 32-bit block number. *)
Lemma Pack_abi (root : list byte) (n : N) :
  (n < 2 ^ 32)%N -> Core.Pack root n = Ok (Spec.abi_encode root n).
Proof.
  intros Hn. unfold Core.Pack, Spec.abi_encode, Core.U256Bytes.
  rewrite RightPadBytes_enc. do 2 f_equal.
  change 32%nat with (4 + 28)%nat. rewrite be_bytes_app.
  change (8 * N.of_nat 4)%N with 32%N.
  rewrite N.shiftr_div_pow2, N.div_small by exact Hn.
  unfold Spec.enc_uint32. f_equal.
  cbn [Core.be_bytes app]. rewrite !N.shiftr_shiftr, !N.shiftr_div_pow2.
  reflexivity.
Qed.

(** The header with the root of 32 zero bytes at reference block 12345
    hashes to the Keccak-256 digest of 64 zero bytes. *)
Example GetBatchHeaderHash_zero_root :
  Core.GetBatchHeaderHash (Core.mkBatchHeader (repeat x00 32) 12345)
  = Ok (Keccak.Sum256 (repeat x00 64))
  /\ Hex.EncodeToString (Keccak.Sum256 (repeat x00 64))
     = lit "ad3228b676f7d3cd4284a5443f17f1962b36e491b30a40b2405849e597ba5fb5".
Proof. split; vm_compute; reflexivity. Qed.

(** C5: the hash of a batch header is the Keccak-256 digest of the ABI
    encoding of the pair (its batch root, 0); the reference block number of
    the header has no part in it. *)
Theorem GetBatchHeaderHash_keccak_abi (root : list byte) (refBlock other : N) :
  Core.GetBatchHeaderHash (Core.mkBatchHeader root refBlock)
    = Ok (Keccak.Sum256 (Spec.abi_encode root 0))
  /\ Core.GetBatchHeaderHash (Core.mkBatchHeader root refBlock)
     = Core.GetBatchHeaderHash (Core.mkBatchHeader root other).
Proof.
  assert (Hh : forall n, Core.GetBatchHeaderHash (Core.mkBatchHeader root n)
                         = Ok (Keccak.Sum256 (Spec.abi_encode root 0))).
  { intros n. unfold Core.GetBatchHeaderHash. rewrite Encode_abi. simpl.
    unfold Keccak.Sum256. now rewrite firstn_firstn. }
  split; [apply Hh | now rewrite !Hh].
Qed.

(* ===================================================================== *)
(** * Hex, decimal and digest lemmas *)
(* ===================================================================== *)

Lemma checkSum_length (d : Sha256.digest) : length (Sha256.checkSum d) = 32%nat.
Proof. unfold Sha256.checkSum. now rewrite !length_app. Qed.

Lemma sha256_length (msg : list byte) : length (Spec.sha256 msg) = 32%nat.
Proof. unfold Spec.sha256, Sha256.Sum. rewrite app_nil_l. apply checkSum_length. Qed.

Lemma keccak_round_length (st : list N) (c : N) :
  length (Keccak.keccak_round st c) = 25%nat.
Proof. reflexivity. Qed.

Lemma keccakF1600_length (st : list N) :
  length st = 25%nat -> length (Keccak.keccakF1600 st) = 25%nat.
Proof.
  unfold Keccak.keccakF1600. generalize Keccak.rc. intros rc. revert st.
  induction rc as [|c rc IH]; intros st Hst; [exact Hst|].
  cbn [fold_left]. apply IH, keccak_round_length.
Qed.

Lemma absorb_length (n : nat) (st : list N) (bs : list byte) :
  length st = 25%nat -> length (Keccak.absorb n st bs) = 25%nat.
Proof.
  revert st bs. induction n as [|n IH]; intros st bs Hst; [exact Hst|].
  cbn [Keccak.absorb]. apply IH, keccakF1600_length.
  unfold Keccak.xor_in.
  rewrite length_map, length_combine, Hst. reflexivity.
Qed.

Lemma put_le_length (n : nat) (w : N) : length (Keccak.put_le n w) = n.
Proof.
  revert w. induction n as [|n IH]; intros w; [reflexivity|].
  cbn [Keccak.put_le length]. now rewrite IH.
Qed.

(** A Keccak-256 digest has 32 bytes. *)
Lemma Sum256_length (msg : list byte) : length (Keccak.Sum256 msg) = 32%nat.
Proof.
  unfold Keccak.Sum256.
  pose proof (absorb_length (length (Keccak.pad msg) / Keccak.rate)
                (repeat 0%N 25) (Keccak.pad msg) eq_refl) as Hst.
  destruct (Keccak.absorb _ _ _) as [|a [|b [|c [|d st]]]]; try discriminate.
  cbn [flat_map].
  assert (H8 : forall w, exists b0 b1 b2 b3 b4 b5 b6 b7,
             Keccak.put_le 8 w = [b0; b1; b2; b3; b4; b5; b6; b7]).
  { intros w. cbn. repeat eexists. }
  destruct (H8 a) as (? & ? & ? & ? & ? & ? & ? & ? & ->).
  destruct (H8 b) as (? & ? & ? & ? & ? & ? & ? & ? & ->).
  destruct (H8 c) as (? & ? & ? & ? & ? & ? & ? & ? & ->).
  destruct (H8 d) as (? & ? & ? & ? & ? & ? & ? & ? & ->).
  reflexivity.
Qed.

(** From here on the digests are computed by [vm_compute] only. *)
#[global] Opaque Sha256.checkSum Sha256.Write Sha256.block Keccak.keccakF1600.

Module HexFacts.
Lemma decode_encode_byte (b : byte) :
  match Hex.encode_byte b with
  | [hi; lo] => Spec.decode_pair hi lo = b
  | _ => False
  end.
Proof. destruct b; vm_compute; reflexivity. Qed.

Lemma encode_byte_inj (a b : byte) :
  Hex.encode_byte a = Hex.encode_byte b -> a = b.
Proof.
  intros Heq.
  pose proof (decode_encode_byte a) as Ha.
  pose proof (decode_encode_byte b) as Hb.
  rewrite Heq in Ha.
  destruct (Hex.encode_byte b) as [|hi [|lo [|? ?]]]; try contradiction.
  congruence.
Qed.

Lemma encode_byte_length (b : byte) : length (Hex.encode_byte b) = 2%nat.
Proof. reflexivity. Qed.

Lemma EncodeToString_length (l : list byte) :
  length (Hex.EncodeToString l) = (2 * length l)%nat.
Proof.
  unfold Hex.EncodeToString.
  induction l as [|b l IH]; simpl; [reflexivity|]. rewrite IH. lia.
Qed.

Lemma EncodeToString_app (l k : list byte) :
  Hex.EncodeToString (l ++ k) = Hex.EncodeToString l ++ Hex.EncodeToString k.
Proof. unfold Hex.EncodeToString. apply flat_map_app. Qed.

Lemma EncodeToString_inj (l k : list byte) :
  Hex.EncodeToString l = Hex.EncodeToString k -> l = k.
Proof.
  unfold Hex.EncodeToString.
  revert k. induction l as [|a l IH]; intros [|b k] Heq; simpl in Heq;
    try discriminate; [reflexivity|].
  injection Heq as H1 H2 H3.
  f_equal.
  - apply encode_byte_inj. unfold Hex.encode_byte. congruence.
  - now apply IH.
Qed.
End HexFacts.

Module FmtFacts.
Lemma digits_inj (u v : Decimal.uint) : Fmt.digits u = Fmt.digits v -> u = v.
Proof.
  revert v. induction u; intros v Heq; destruct v; simpl in Heq;
    try discriminate; try reflexivity;
    injection Heq as Heq; f_equal; now apply IHu.
Qed.

Lemma digits_no_slash (u : Decimal.uint) : ~ In Spec.slash (Fmt.digits u).
Proof.
  induction u; simpl; intros Hin; try contradiction;
    destruct Hin as [Hin | Hin]; try discriminate; now apply IHu.
Qed.

Lemma d_inj (n m : N) : Fmt.d n = Fmt.d m -> n = m.
Proof.
  unfold Fmt.d. intros Heq. apply digits_inj in Heq.
  rewrite <- (DecimalN.Unsigned.of_to n), <- (DecimalN.Unsigned.of_to m).
  now rewrite Heq.
Qed.

Lemma d_no_slash (n : N) : ~ In Spec.slash (Fmt.d n).
Proof. apply digits_no_slash. Qed.

(** A field that holds no slash is delimited by the first slash after it. *)
Lemma field_split (u v t1 t2 : gostring) :
  ~ In Spec.slash u -> ~ In Spec.slash v ->
  u ++ Spec.slash :: t1 = v ++ Spec.slash :: t2 -> u = v /\ t1 = t2.
Proof.
  revert v. induction u as [|a u IH]; intros [|b v] Hu Hv Heq; simpl in *.
  - injection Heq as Heq. now split.
  - injection Heq as H1 H2. exfalso. apply Hv. now left.
  - injection Heq as H1 H2. exfalso. apply Hu. now left.
  - injection Heq as H1 H2.
    destruct (IH v) as [Huv Ht]; [tauto | tauto | assumption |].
    subst. now split.
Qed.
End FmtFacts.

(* ===================================================================== *)
(** * Blob keys *)
(* ===================================================================== *)

Section BlobKeys.
Import Core Disperser Blobstore.

Lemma fold_left_append {A} (f : A -> gostring) (l : list A) (init : gostring) :
  fold_left (fun str a => str ++ f a) l init = init ++ flat_map f l.
Proof.
  revert init. induction l as [|a l IH]; intros init; simpl.
  - now rewrite app_nil_r.
  - rewrite IH. now rewrite <- app_assoc.
Qed.

Lemma getMetadataHash_eq (requestedAt : N) (ps : list SecurityParam) :
  getMetadataHash requestedAt ps
  = Ok (Hex.EncodeToString (Spec.metadataString requestedAt ps ++ Spec.sha256 [])).
Proof.
  unfold getMetadataHash, Spec.metadataString, Spec.sha256, Sha256.Sum.
  rewrite fold_left_append. reflexivity.
Qed.

Lemma metadataString_fields (r : N) (ps : list SecurityParam) :
  Spec.metadataString r ps
  = Fmt.d r ++ Spec.slash :: flat_map Spec.formatFields (map Spec.hashedFields ps).
Proof.
  unfold Spec.metadataString. rewrite <- app_assoc. f_equal. simpl. f_equal.
  induction ps as [|p ps IH]; simpl; [reflexivity|]. now rewrite IH.
Qed.

Lemma formatFields_inj (l k : list (N * N)) :
  flat_map Spec.formatFields l = flat_map Spec.formatFields k -> l = k.
Proof.
  revert k. induction l as [|[q a] l IH]; intros [|[q' a'] k] Heq.
  - reflexivity.
  - exfalso. simpl in Heq. unfold Spec.formatFields in Heq. simpl in Heq.
    destruct (Fmt.d q'); discriminate.
  - exfalso. simpl in Heq. unfold Spec.formatFields in Heq. simpl in Heq.
    destruct (Fmt.d q); discriminate.
  - simpl in Heq. unfold Spec.formatFields in Heq. simpl in Heq.
    rewrite <- !app_assoc in Heq. simpl in Heq.
    apply FmtFacts.field_split in Heq as [Hq Heq];
      [|apply FmtFacts.d_no_slash|apply FmtFacts.d_no_slash].
    rewrite <- !app_assoc in Heq. simpl in Heq.
    apply FmtFacts.field_split in Heq as [Ha Heq];
      [|apply FmtFacts.d_no_slash|apply FmtFacts.d_no_slash].
    apply FmtFacts.d_inj in Hq. apply FmtFacts.d_inj in Ha.
    f_equal; [congruence | now apply IH].
Qed.

Lemma metadataString_inj (r1 r2 : N) (ps1 ps2 : list SecurityParam) :
  Spec.metadataString r1 ps1 = Spec.metadataString r2 ps2 ->
  r1 = r2 /\ map Spec.hashedFields ps1 = map Spec.hashedFields ps2.
Proof.
  rewrite !metadataString_fields. intros Heq.
  apply FmtFacts.field_split in Heq as [Hr Heq];
    [|apply FmtFacts.d_no_slash|apply FmtFacts.d_no_slash].
  split; [now apply FmtFacts.d_inj | now apply formatFields_inj].
Qed.

Lemma getBlobHash_eq (b : Blob) :
  getBlobHash b = Hex.EncodeToString (Spec.sha256 (Data b)).
Proof. reflexivity. Qed.

(** What [StoreBlob] returns when it returns a key. *)
Lemma StoreBlob_key (s s' : SharedBlobStore) (b : Blob) (r : N) (now : Z)
      (k : BlobKey) :
  StoreBlob s (Some b) r now = (s', Ok k) ->
  k = mkBlobKey
        (Hex.EncodeToString (Spec.sha256 (Data b)))
        (Hex.EncodeToString
           (Spec.metadataString r (SecurityParams (RequestHeader b))
              ++ Spec.sha256 [])).
Proof.
  unfold StoreBlob. rewrite getMetadataHash_eq, getBlobHash_eq.
  destruct (metadataHashAsBlobKey s);
    (destruct (UploadObject _ _ _) as [c [e|]]; [discriminate|]);
    (destruct (QueueNewBlobMetadata _ _) as [ms [e|]]; [discriminate|]);
    intros Heq; now injection Heq as _ <-.
Qed.

Lemma String_inj_iff (h1 h2 m1 m2 : list byte) :
  length h1 = length h2 ->
  Disperser.String (mkBlobKey (Hex.EncodeToString h1) (Hex.EncodeToString m1))
  = Disperser.String (mkBlobKey (Hex.EncodeToString h2) (Hex.EncodeToString m2))
  <-> h1 = h2 /\ m1 = m2.
Proof.
  intros Hlen. unfold Disperser.String. simpl. split.
  - intros Heq. apply app_inj_1 in Heq as [Hh Hm].
    + injection Hm as Hm.
      split; now apply HexFacts.EncodeToString_inj.
    + rewrite !HexFacts.EncodeToString_length. lia.
  - now intros [-> ->].
Qed.
End BlobKeys.

(** C1: at [requestedAt = 0] and no security parameters the string is
    ["0/"]; the metadata hash that [getMetadataHash] returns is the hex form
    of that string followed by the SHA-256 digest of the empty message (68
    digits), while the hex form of the SHA-256 digest of the string is
    another word (64 digits). *)
Theorem getMetadataHash_at_zero :
  Spec.metadataString 0 [] = lit "0/"
  /\ Blobstore.getMetadataHash 0 []
     = Ok (lit "302fe3b0c44298fc1c149afbf4c8996fb92427ae41e4649b934ca495991b7852b855")
  /\ Hex.EncodeToString (Spec.sha256 (Spec.metadataString 0 []))
     = lit "1ff70ec879acb37790026a019419e2151dc7821d2a62f51fd810fd0020e87d42".
Proof. split; [|split]; vm_compute; reflexivity. Qed.

(** At no input is the metadata hash the hex form of the digest of the
    string: it is too long for that. *)
Lemma getMetadataHash_never_digest (requestedAt : N) (ps : list Core.SecurityParam) :
  Blobstore.getMetadataHash requestedAt ps
  <> Ok (Hex.EncodeToString (Spec.sha256 (Spec.metadataString requestedAt ps))).
Proof.
  rewrite getMetadataHash_eq. intros Heq. injection Heq as Heq.
  apply (f_equal (@length byte)) in Heq.
  rewrite !HexFacts.EncodeToString_length, length_app, !sha256_length in Heq.
  rewrite metadataString_fields, length_app in Heq. cbn [length] in Heq. lia.
Qed.

(** With both services answering, [StoreBlob] returns a key, and the
    metadata table then holds under that key a record in status
    [Processing] that has not been retried. *)
Lemma StoreBlob_available (s : Blobstore.SharedBlobStore) (b : Core.Blob)
      (r : N) (now : Z) :
  Blobstore.s3_up (Blobstore.s3Client s) = true ->
  Blobstore.table_up (Blobstore.blobMetadataStore s) = true ->
  exists s' k,
    Blobstore.StoreBlob s (Some b) r now = (s', Ok k)
    /\ exists m,
        Blobstore.table (Blobstore.blobMetadataStore s') !! Blobstore.keyOf k = Some m
        /\ Disperser.GetBlobKey m = k
        /\ Disperser.Status m = Disperser.Processing
        /\ Disperser.NumRetries m = 0%N.
Proof.
  intros Hs3 Htab.
  unfold Blobstore.StoreBlob. rewrite getMetadataHash_eq.
  unfold Blobstore.UploadObject. rewrite Hs3.
  destruct (Blobstore.metadataHashAsBlobKey s);
    cbn [Blobstore.withS3 Blobstore.blobMetadataStore Blobstore.s3Client];
    unfold Blobstore.QueueNewBlobMetadata; rewrite Htab;
    (eexists; eexists; split; [reflexivity|]);
    (eexists; split; [apply lookup_insert_eq|]); now repeat split.
Qed.

(** C2, as stated, fails: two ingestion inputs with the same bytes and the
    same [requestedAt] whose one security parameter differs in its
    [QuorumThreshold] (50 and 60) are stored under the same key. *)
Lemma key_blind_to_QuorumThreshold :
  (7%N, Core.SecurityParams (Core.RequestHeader (Demo.blobWithThreshold 50)),
   Core.Data (Demo.blobWithThreshold 50))
  <> (7%N, Core.SecurityParams (Core.RequestHeader (Demo.blobWithThreshold 60)),
      Core.Data (Demo.blobWithThreshold 60))
  /\ exists k : Disperser.BlobKey,
      snd (Blobstore.StoreBlob Demo.emptyStore (Some (Demo.blobWithThreshold 50)) 7 0) = Ok k
      /\ snd (Blobstore.StoreBlob Demo.emptyStore (Some (Demo.blobWithThreshold 60)) 7 0) = Ok k.
Proof.
  split; [discriminate|].
  eexists. split; [vm_compute; reflexivity|]. vm_compute. reflexivity.
Qed.

Lemma byte_card : (1 < card byte)%nat.
Proof. vm_compute. lia. Qed.

(** SHA-256 maps the byte strings of length 33 into those of length 32,
    which are fewer: it is not injective, and neither is the blob hash.  So
    a key can tell two data apart only by their digests. *)
Lemma sha256_not_injective :
  ~ (forall d1 d2 : list byte, Spec.sha256 d1 = Spec.sha256 d2 -> d1 = d2).
Proof.
  intros Hinj.
  set (f := fun x : { l : list byte | length l = 33%nat } =>
              (Spec.sha256 (`x) ↾ sha256_length (`x))
              : { l : list byte | length l = 32%nat }).
  assert (Hf : Inj (=) (=) f).
  { intros x y Hxy. apply (sig_eq_pi _).
    apply Hinj. now apply (f_equal proj1_sig) in Hxy. }
  pose proof (inj_card f) as Hcard.
  rewrite !list_card in Hcard.
  pose proof (Nat.pow_lt_mono_r (card byte) 32 33 byte_card) as Hlt.
  lia.
Qed.

Lemma getBlobHash_not_injective (h : Core.BlobRequestHeader) :
  ~ (forall d1 d2 : list byte,
        Blobstore.getBlobHash (Core.mkBlob h d1)
        = Blobstore.getBlobHash (Core.mkBlob h d2) -> d1 = d2).
Proof.
  intros Hinj. apply sha256_not_injective. intros d1 d2 Heq.
  apply Hinj. rewrite !getBlobHash_eq. cbn [Core.Data]. now rewrite Heq.
Qed.


(** C2, amended: the printable keys that [StoreBlob] returns for two
    ingestion inputs are equal exactly when the two [requestedAt] are equal,
    the security parameters agree in order on [QuorumID] and
    [AdversaryThreshold], and the two data have the same SHA-256 digest.
    Hence inputs that differ in [requestedAt], or in those two fields of a
    parameter, or in the number of parameters, get different keys. *)
Theorem StoreBlob_key_injective
        (s1 s1' s2 s2' : Blobstore.SharedBlobStore) (b1 b2 : Core.Blob)
        (r1 r2 : N) (now1 now2 : Z) (k1 k2 : Disperser.BlobKey) :
  Blobstore.StoreBlob s1 (Some b1) r1 now1 = (s1', Ok k1) ->
  Blobstore.StoreBlob s2 (Some b2) r2 now2 = (s2', Ok k2) ->
  (Disperser.String k1 = Disperser.String k2
   <-> r1 = r2
       /\ map Spec.hashedFields (Core.SecurityParams (Core.RequestHeader b1))
          = map Spec.hashedFields (Core.SecurityParams (Core.RequestHeader b2))
       /\ Spec.sha256 (Core.Data b1) = Spec.sha256 (Core.Data b2)).
Proof.
  intros H1 H2.
  apply StoreBlob_key in H1. apply StoreBlob_key in H2. subst k1 k2.
  rewrite String_inj_iff by now rewrite !sha256_length.
  split.
  - intros [Hd Hm]. apply app_inv_tail in Hm.
    apply metadataString_inj in Hm as [Hr Hps]. tauto.
  - intros (-> & Hps & ->). split; [reflexivity|].
    f_equal. rewrite !metadataString_fields. now rewrite Hps.
Qed.

Lemma StoreBlob_key_injective_witness :
  exists k1 k2 : Disperser.BlobKey,
    Disperser.String k1 <> Disperser.String k2
    /\ snd (Blobstore.StoreBlob Demo.emptyStore (Some (Demo.blobWithThreshold 50)) 7 0) = Ok k1
    /\ snd (Blobstore.StoreBlob Demo.emptyStore (Some (Demo.blobWithThreshold 50)) 8 0) = Ok k2.
Proof.
  destruct (StoreBlob_available Demo.emptyStore (Demo.blobWithThreshold 50) 7 0
              eq_refl eq_refl) as (s1' & k1 & E1 & _).
  destruct (StoreBlob_available Demo.emptyStore (Demo.blobWithThreshold 50) 8 0
              eq_refl eq_refl) as (s2' & k2 & E2 & _).
  exists k1, k2. split; [|now rewrite E1, E2].
  intros Heq.
  apply (StoreBlob_key_injective _ _ _ _ _ _ _ _ _ _ _ _ E1 E2) in Heq.
  destruct Heq as [Hr _]. discriminate.
Defined.

(* ===================================================================== *)
(** * Retries *)
(* ===================================================================== *)

Section Retries.
Import Core Disperser Blobstore.

Lemma alterRecord_found (ms : BlobMetadataStore) (k : BlobKey)
      (f : BlobMetadata -> BlobMetadata) (m : BlobMetadata) :
  table_up ms = true ->
  table ms !! keyOf k = Some m ->
  alterRecord ms k f
  = (mkMetadataStore (<[keyOf k := f m]> (table ms)) (ttl ms) (table_up ms), None).
Proof. intros Hup Hm. unfold alterRecord. now rewrite Hup, Hm. Qed.

(** C8: on a failure of a blob whose record [m] is in the table,
    [HandleBlobFailure] returns without error and leaves every other
    record as it was; below [maxRetry] the record's [NumRetries] is one
    more and nothing else has changed, otherwise its status is [Failed]
    and nothing else has changed.  So [NumRetries] does not decrease, and
    a [Processing] blob whose [NumRetries] has reached the bound is
    [Failed] after its next failure. *)
Theorem HandleBlobFailure_retry_or_fail
        (s : SharedBlobStore) (m : BlobMetadata) (maxRetry : N) :
  table_up (blobMetadataStore s) = true ->
  table (blobMetadataStore s) !! keyOf (GetBlobKey m) = Some m ->
  (maxRetry < 2 ^ 64)%N ->
  exists s' m',
    HandleBlobFailure s m maxRetry = (s', None)
    /\ table (blobMetadataStore s') !! keyOf (GetBlobKey m) = Some m'
    /\ (forall k, k <> keyOf (GetBlobKey m) ->
                  table (blobMetadataStore s') !! k
                  = table (blobMetadataStore s) !! k)
    /\ ((NumRetries m < maxRetry)%N ->
        m' = withNumRetries m (NumRetries m + 1))
    /\ ((maxRetry <= NumRetries m)%N -> m' = withStatus m Failed)
    /\ (NumRetries m <= NumRetries m')%N
    /\ ((maxRetry <= NumRetries m)%N -> Status m = Processing ->
        Status m' = Failed).
Proof.
  intros Hup Hm Hmax. unfold HandleBlobFailure.
  destruct (N.ltb_spec (NumRetries m) maxRetry) as [Hlt | Hge].
  - unfold IncrementBlobRetryCount, IncrementNumRetries.
    rewrite (alterRecord_found _ _ _ m Hup Hm).
    rewrite N.mod_small by lia.
    eexists. eexists. split; [reflexivity|]. cbn.
    split; [apply lookup_insert_eq|].
    split; [intros k Hk; now apply lookup_insert_ne|].
    repeat split; try reflexivity; cbn; lia.
  - unfold MarkBlobFailed, SetBlobStatus.
    rewrite (alterRecord_found _ _ _ m Hup Hm).
    eexists. eexists. split; [reflexivity|]. cbn.
    split; [apply lookup_insert_eq|].
    split; [intros k Hk; now apply lookup_insert_ne|].
    repeat split; try reflexivity; cbn; lia.
Qed.
End Retries.

Lemma HandleBlobFailure_retry_or_fail_witness :
  exists s' m',
    Blobstore.HandleBlobFailure (Demo.storeOf Demo.retriedTwice) Demo.retriedTwice 2 = (s', None)
    /\ Blobstore.table (Blobstore.blobMetadataStore s')
         !! Blobstore.keyOf (Disperser.GetBlobKey Demo.retriedTwice) = Some m'
    /\ Disperser.Status m' = Disperser.Failed.
Proof.
  destruct (HandleBlobFailure_retry_or_fail (Demo.storeOf Demo.retriedTwice) Demo.retriedTwice 2)
    as (s' & m' & Hrun & Hget & _ & _ & _ & _ & Hfail).
  - reflexivity.
  - apply lookup_singleton_eq.
  - reflexivity.
  - exists s', m'. split; [exact Hrun|]. split; [exact Hget|].
    apply Hfail; [discriminate | reflexivity].
Defined.

(* ===================================================================== *)
(** * Ingestion *)
(* ===================================================================== *)

(** What a successful [StoreBlob] has stored: the object under the key of
    the mode, and a fresh [Processing] record under the returned key. *)
Lemma StoreBlob_stored (s s' : Blobstore.SharedBlobStore) (b : Core.Blob)
      (r : N) (now : Z) (k : Disperser.BlobKey) :
  Blobstore.StoreBlob s (Some b) r now = (s', Ok k) ->
  Blobstore.objects (Blobstore.s3Client s')
    !! (if Blobstore.metadataHashAsBlobKey s
        then Disperser.KeyMetadataHash k
        else Blobstore.blobObjectKey (Disperser.KeyBlobHash k))
  = Some (Core.Data b)
  /\ exists m,
      Blobstore.table (Blobstore.blobMetadataStore s') !! Blobstore.keyOf k = Some m
      /\ Disperser.GetBlobKey m = k
      /\ Disperser.Status m = Disperser.Processing
      /\ Disperser.NumRetries m = 0%N
      /\ Disperser.Confirmation m = None.
Proof.
  unfold Blobstore.StoreBlob. rewrite getMetadataHash_eq.
  unfold Blobstore.UploadObject, Blobstore.QueueNewBlobMetadata.
  destruct (Blobstore.metadataHashAsBlobKey s);
    (destruct (Blobstore.s3_up (Blobstore.s3Client s)); [|discriminate]);
    cbn [Blobstore.withS3 Blobstore.blobMetadataStore Blobstore.s3Client];
    (destruct (Blobstore.table_up (Blobstore.blobMetadataStore s));
     [|discriminate]);
    intros Heq; injection Heq as <- <-; cbn;
    (split; [apply lookup_insert_eq|]);
    (eexists; split; [apply lookup_insert_eq|]); now repeat split.
Qed.

Section Ingestion.
Variable MaxBlobSize : N.
Variable context : Type.
Variable GetClientAddress : context -> gostring -> Z -> bool -> outcome error gostring.
Variable float32 : Type.
Context {S : Type} `{KVStore Ratelimit.RateBucketParams S}.

Local Abbreviation Server := (Apiserver.DispersalServer float32 (S := S)).
Local Abbreviation DisperseBlob :=
  (Apiserver.DisperseBlob MaxBlobSize context GetClientAddress float32).

(** Within the size bounds, with an origin that resolves and a key returned
    by [StoreBlob], the reply is PROCESSING with the printed key. *)
Lemma DisperseBlob_stores (s : Server) (ctx : context)
      (clk : Apiserver.clock) (req : Pb.DisperseBlobRequest)
      (origin : gostring) (b : Blobstore.SharedBlobStore)
      (key : Disperser.BlobKey) :
  (1 <= N.of_nat (length (Pb.Data req)) <= MaxBlobSize)%N ->
  GetClientAddress ctx (Apiserver.ClientIPHeader float32 s) 2 true = Ok origin ->
  Blobstore.StoreBlob (Apiserver.blobStore float32 s)
                      (Some (Apiserver.getBlobFromRequest req))
                      (Z.to_N (uint64 (Apiserver.nowRequest clk)))
                      (Apiserver.nowStore clk) = (b, Ok key) ->
  DisperseBlob s ctx clk req
  = (Apiserver.withBlobStore float32 s b,
     Ok (Pb.mkDisperseBlobReply Pb.BlobStatus_PROCESSING (Disperser.String key))).
Proof.
  intros [Hlo Hhi] Horigin Hstore.
  unfold Apiserver.DisperseBlob.
  destruct (N.ltb_spec MaxBlobSize (N.of_nat (length (Pb.Data req))))
    as [Hbig | _]; [lia|].
  destruct (N.eqb_spec (N.of_nat (length (Pb.Data req))) 0) as [Hz | _]; [lia|].
  now rewrite Horigin, Hstore.
Qed.

(** C7: a request whose data is empty or longer than [MaxBlobSize] is
    answered by an error and leaves the server, with its object store and
    metadata table, as it was; a request within the bounds whose origin
    resolves and for which [StoreBlob] returns a key is answered by the
    status PROCESSING and that key in printable form, and the table then
    holds a [Processing] record under the key. *)
Theorem DisperseBlob_size_bounds (s : Server) (ctx : context)
        (clk : Apiserver.clock) (req : Pb.DisperseBlobRequest) :
  ((N.of_nat (length (Pb.Data req)) = 0
    \/ MaxBlobSize < N.of_nat (length (Pb.Data req)))%N ->
   exists e, DisperseBlob s ctx clk req = (s, Err e))
  /\ ((1 <= N.of_nat (length (Pb.Data req)) <= MaxBlobSize)%N ->
      forall origin b key,
        GetClientAddress ctx (Apiserver.ClientIPHeader float32 s) 2 true = Ok origin ->
        Blobstore.StoreBlob (Apiserver.blobStore float32 s)
                            (Some (Apiserver.getBlobFromRequest req))
                            (Z.to_N (uint64 (Apiserver.nowRequest clk)))
                            (Apiserver.nowStore clk) = (b, Ok key) ->
        DisperseBlob s ctx clk req
        = (Apiserver.withBlobStore float32 s b,
           Ok (Pb.mkDisperseBlobReply Pb.BlobStatus_PROCESSING
                                      (Disperser.String key)))
        /\ exists m,
            Blobstore.table (Blobstore.blobMetadataStore b) !! Blobstore.keyOf key
            = Some m
            /\ Disperser.Status m = Disperser.Processing).
Proof.
  split.
  - intros Hsize. unfold Apiserver.DisperseBlob.
    destruct (N.ltb_spec MaxBlobSize (N.of_nat (length (Pb.Data req))))
      as [Hbig | Hsmall]; [eexists; reflexivity|].
    destruct Hsize as [Hzero | Hbig]; [|lia].
    rewrite Hzero. cbn. eexists; reflexivity.
  - intros Hsize origin b key Horigin Hstore.
    split; [now apply (DisperseBlob_stores s ctx clk req origin)|].
    apply StoreBlob_stored in Hstore as [_ (m & Hm & _ & Hst & _)].
    now exists m.
Qed.

End Ingestion.

(* ===================================================================== *)
(** * Status queries *)
(* ===================================================================== *)

Section Status.
Variable ParseBlobKey : gostring -> outcome error Disperser.BlobKey.
Variable IsConfirmed : option Disperser.BlobMetadata -> outcome error bool.
Variable Deserialize : list byte -> outcome error Disperser.BlobMetadata.
Variable float32 : Type.
Context {S : Type} `{KVStore Ratelimit.RateBucketParams S}.

Local Abbreviation Server := (Apiserver.DispersalServer float32 (S := S)).
Local Abbreviation GetBlobStatus :=
  (Apiserver.GetBlobStatus ParseBlobKey IsConfirmed Deserialize float32).
Local Abbreviation kvRecord := (Apiserver.kvRecord Deserialize float32).
Local Abbreviation kvFallback := (Apiserver.kvFallback Deserialize float32).
Local Abbreviation statusReply := (Apiserver.statusReply IsConfirmed).

Lemma quorumArrays_complete (results : gmap N Core.QuorumResult)
      (infos : list Core.BlobQuorumInfo) (i : nat) :
  Forall (fun qi => is_Some (results !! Core.QuorumID (Core.Param qi))) infos ->
  is_Some (Apiserver.quorumArrays results i infos).
Proof.
  intros Hall. revert i.
  induction Hall as [|qi infos [res Hres] _ IH]; intros i; cbn.
  - eexists; reflexivity.
  - rewrite Hres. destruct (IH (Datatypes.S i)) as [[[[ps ns] sg] ix] ->].
    eexists; reflexivity.
Qed.

(** The reply built for a record carries the status of the record, and is
    built whenever [IsConfirmed] answers and, if it answers yes, the
    confirmation is there with a result for each of its quorums. *)
Lemma statusReply_built (m : Disperser.BlobMetadata) (b : bool) :
  IsConfirmed (Some m) = Ok b ->
  (b = true -> exists ci, Disperser.Confirmation m = Some ci /\ Spec.resultsComplete ci) ->
  exists reply,
    statusReply (Some m) = Ok reply
    /\ Pb.Status reply = Apiserver.getResponseStatus (Disperser.Status m).
Proof.
  intros Hconf Hci. unfold Apiserver.statusReply. rewrite Hconf.
  destruct b.
  - destruct (Hci eq_refl) as (ci & -> & Hres).
    destruct (quorumArrays_complete _ _ 0%nat Hres) as [[[[ps ns] sg] ix] ->].
    eexists; split; reflexivity.
  - eexists; split; reflexivity.
Qed.

Lemma GetBlobStatus_fallback (s : Server) (requestID : list byte)
      (key : Disperser.BlobKey) :
  Apiserver.metadataHashAsBlobKey float32 s = true ->
  requestID <> [] ->
  ParseBlobKey requestID = Ok key ->
  Apiserver.missOrMismatch
    (fst (Blobstore.GetBlobMetadata (Apiserver.blobStore float32 s) key))
    requestID = true ->
  GetBlobStatus s requestID
  = match kvFallback s requestID with
    | None => Panic
    | Some m => statusReply (Some m)
    end.
Proof.
  intros Hmode Hne Hparse Hmiss. unfold Apiserver.GetBlobStatus.
  destruct requestID as [|c requestID]; [contradiction|].
  cbn [length Nat.eqb]. rewrite Hparse.
  destruct (Blobstore.GetBlobMetadata _ key) as [metadata err].
  cbn [fst] in Hmiss. rewrite Hmode, Hmiss.
  now destruct err.
Qed.


(** A record of the KV without confirmation makes the fallback fault. *)
Lemma GetBlobStatus_nil_confirmation (s : Server) (requestID : list byte)
      (key : Disperser.BlobKey) (md : Disperser.BlobMetadata) :
  Apiserver.metadataHashAsBlobKey float32 s = true ->
  requestID <> [] ->
  ParseBlobKey requestID = Ok key ->
  Apiserver.missOrMismatch
    (fst (Blobstore.GetBlobMetadata (Apiserver.blobStore float32 s) key))
    requestID = true ->
  kvRecord s requestID = Some md ->
  Disperser.Confirmation md = None ->
  GetBlobStatus s requestID = Panic.
Proof.
  intros Hmode Hne Hparse Hmiss Hkv Hci.
  rewrite (GetBlobStatus_fallback s requestID key Hmode Hne Hparse Hmiss).
  unfold Apiserver.kvFallback. now rewrite Hkv, Hci.
Qed.
End Status.


Lemma DisperseBlob_size_bounds_witness :
  (exists e,
      Demo.DisperseBlob Demo.server Demo.origin (Apiserver.mkClock 0 0) Demo.noByte
      = (Demo.server, Err e))
  /\ exists b key,
      Demo.DisperseBlob Demo.server Demo.origin (Apiserver.mkClock 0 0) Demo.oneByte
      = (Apiserver.withBlobStore N Demo.server b,
         Ok (Pb.mkDisperseBlobReply Pb.BlobStatus_PROCESSING
                                    (Disperser.String key))).
Proof.
  split.
  - apply (proj1 (DisperseBlob_size_bounds Demo.MaxBlobSize gostring
                    Demo.GetClientAddress N Demo.server Demo.origin
                    (Apiserver.mkClock 0 0) Demo.noByte)).
    left. reflexivity.
  - destruct (StoreBlob_available (Demo.store false)
                (Apiserver.getBlobFromRequest Demo.oneByte) 0 0 eq_refl eq_refl)
      as (b & key & Hstore & _).
    exists b, key.
    apply (proj2 (DisperseBlob_size_bounds Demo.MaxBlobSize gostring
                    Demo.GetClientAddress N Demo.server Demo.origin
                    (Apiserver.mkClock 0 0) Demo.oneByte)
                 ltac:(vm_compute; split; discriminate)
                 Demo.origin b key eq_refl Hstore).
Defined.


(** C10: the KV holds under the request id a record that deserializes
    without confirmation; the primary store misses, and the status query
    faults at the read of [ConfirmationBlockNumber]. *)
Theorem GetBlobStatus_faults_on_bare_record :
  Demo.Deserialize [x01]
  = Ok (Disperser.mkBlobMetadata (lit "aa") (lit "bb") Disperser.Confirmed
                                 0 0 None None)
  /\ Demo.GetBlobStatus (Demo.kvServer [x01] 7) Demo.requestID = Panic.
Proof. split; vm_compute; reflexivity. Qed.

(* ===================================================================== *)
(** * Rate limiter *)
(* ===================================================================== *)





Lemma int64_sub_idemp (a b : Z) : int64 (int64 a - b) = int64 (a - b).
Proof.
  unfold int64.
  replace ((a + 2 ^ 63) mod 2 ^ 64 - 2 ^ 63 - b + 2 ^ 63)
    with ((a + 2 ^ 63) mod 2 ^ 64 - b) by ring.
  rewrite Zminus_mod_idemp_l. f_equal. f_equal. ring.
Qed.

Lemma getBucketLevel_clamp (bucketLevel bucketSize interval deduction : Z) :
  Ratelimit.getBucketLevel bucketLevel bucketSize interval deduction
  = Spec.clamp (int64 (bucketLevel + interval - deduction)) 0 bucketSize.
Proof.
  unfold Ratelimit.getBucketLevel, Ratelimit.dsub, Ratelimit.dadd, Spec.clamp.
  rewrite int64_sub_idemp.
  set (x := int64 (bucketLevel + interval - deduction)).
  rewrite !Z.gtb_ltb.
  destruct (Z.ltb_spec x 0); destruct (Z.ltb_spec bucketSize 0);
    destruct (Z.ltb_spec bucketSize x); lia.
Qed.

Section LimiterFacts.
Variable float32 : Type.
Variable quotient : N -> N -> float32 -> Z.
Context {S : Type} `{KVStore Ratelimit.RateBucketParams S}.

Local Abbreviation Limiter := (Ratelimit.rateLimiter float32 (S := S)).
Local Abbreviation AllowRequest := (Ratelimit.AllowRequest float32 quotient).
Local Abbreviation newLevel := (Spec.newLevel float32 quotient).
Local Abbreviation newLevels := (Spec.newLevels float32 quotient).
Local Abbreviation startingBucket := (Spec.startingBucket float32).
Local Abbreviation returned := Spec.returned.



(** The loop, started at index [length done] with the tiers before it
    already updated. *)
Lemma updateLevels_run (p : Ratelimit.GlobalRateParams float32)
      (blobSize rate : N) (interval : Z) (sizes : list Z) :
  forall (done levels : list Z) (mdone ms : list float32) (allowed : bool),
    Ratelimit.Multipliers float32 p = mdone ++ ms ->
    length mdone = length done ->
    length levels = length sizes ->
    length ms = length sizes ->
    Ratelimit.updateLevels float32 quotient p blobSize rate interval
                           (length done) sizes (done ++ levels) allowed
    = Some (done ++ newLevels blobSize rate interval levels sizes ms,
            allowed && forallb (fun l => 0 <? l)
                               (newLevels blobSize rate interval levels sizes ms)).
Proof.
  induction sizes as [|size sizes IH];
    intros done [|level levels] mdone [|m ms] allowed Hm Hmd Hl Hms;
    cbn in Hl, Hms; try discriminate.
  - cbn. now rewrite andb_true_r.
  - cbn [Ratelimit.updateLevels].
    rewrite Hm, <- Hmd, list_lookup_middle by reflexivity.
    rewrite Hmd, list_lookup_middle by reflexivity.
    rewrite (insert_app_r_alt done (level :: levels) (length done)) by lia.
    rewrite Nat.sub_diag. cbn [insert list_insert].
    rewrite cons_middle, app_assoc.
    replace (Datatypes.S (length done)) with (length (done ++
      [Ratelimit.getBucketLevel level size interval
         (Ratelimit.deduction float32 quotient blobSize rate m)]))
      by (rewrite length_app; cbn; lia).
    rewrite (IH _ levels (mdone ++ [m]) ms).
    + rewrite <- app_assoc. cbn [newLevels forallb app].
      unfold newLevel. rewrite getBucketLevel_clamp.
      unfold Ratelimit.deduction, Ratelimit.dmul.
      now rewrite andb_assoc.
    + now rewrite <- app_assoc.
    + rewrite !length_app. cbn. lia.
    + lia.
    + lia.
Qed.

(** One call of [AllowRequest] for a requester off the allowlist, with a
    multiplier and a level for each tier. *)
Lemma AllowRequest_run (d : Limiter) (clk : Ratelimit.clock)
      (requesterID : gostring) (blobSize rate : N)
      (st1 : S) (item : option Ratelimit.RateBucketParams) :
  let p := Ratelimit.globalRateParams float32 d in
  let bp := startingBucket p clk item in
  let interval := Ratelimit.Sub (Ratelimit.nowSince clk)
                                (Ratelimit.LastRequestTime bp) in
  let levels' := newLevels blobSize rate interval (Ratelimit.BucketLevels bp)
                           (Ratelimit.BucketSizes float32 p)
                           (Ratelimit.Multipliers float32 p) in
  let allowed := forallb (fun l => 0 <? l) levels' in
  let bp' := Ratelimit.mkRateBucketParams levels' (Ratelimit.nowStamp clk) in
  existsb (fun id => Strings.Contains requesterID id)
          (Ratelimit.allowlist float32 d) = false ->
  GetItem (Ratelimit.bucketStore float32 d) requesterID = (st1, item) ->
  length (Ratelimit.Multipliers float32 p) = length (Ratelimit.BucketSizes float32 p) ->
  length (Ratelimit.BucketLevels bp) = length (Ratelimit.BucketSizes float32 p) ->
  AllowRequest d clk requesterID blobSize rate
  = if allowed || Ratelimit.CountFailed float32 p
    then (Ratelimit.withBucketStore float32 d (fst (UpdateItem st1 requesterID bp')),
          match snd (UpdateItem st1 requesterID bp') with
          | Some e => Err (allowed, e)
          | None => Ok allowed
          end)
    else (Ratelimit.withBucketStore float32 d st1, Ok allowed).
Proof.
  intros p bp interval levels' allowed bp' Hlist Hget Hms Hls.
  unfold Ratelimit.AllowRequest. rewrite Hlist, Hget.
  change (match item with
          | Some b => b
          | None => Ratelimit.mkRateBucketParams
                      (Ratelimit.BucketSizes float32 (Ratelimit.globalRateParams float32 d))
                      (Ratelimit.nowFresh clk)
          end) with bp.
  pose proof (updateLevels_run p blobSize rate interval
                (Ratelimit.BucketSizes float32 p) [] (Ratelimit.BucketLevels bp)
                [] (Ratelimit.Multipliers float32 p) true
                eq_refl eq_refl Hls Hms) as Hrun.
  cbn [length app andb] in Hrun. fold p interval. rewrite Hrun.
  fold levels' allowed bp'.
  destruct (allowed || Ratelimit.CountFailed float32 p); [|reflexivity].
  now destruct (UpdateItem st1 requesterID bp') as [st2 [e|]].
Qed.


End LimiterFacts.



(* ===================================================================== *)
(** * Further properties: hashes of headers *)
(* ===================================================================== *)

Lemma firstn_32_Sum256 (msg : list byte) :
  firstn 32 (Keccak.Sum256 msg) = Keccak.Sum256 msg.
Proof. apply firstn_all2. rewrite Sum256_length. lia. Qed.

Lemma GetBlobHeaderHash_some (root : list byte) :
  Core.GetBlobHeaderHash (Core.mkBlobHeader (Some root))
  = Ok (Keccak.Sum256 root).
Proof.
  unfold Core.GetBlobHeaderHash, Core.EncodeBlobHeader.
  cbn [Core.CommitmentRoot]. now rewrite firstn_32_Sum256.
Qed.

(** X1: the hash of a batch header is always there and has 32 bytes; the
    hash of a blob header has 32 bytes when the header has a commitment
    root, and is the error [ErrInvalidCommitment] exactly when it has none;
    the hash of a commitment has 32 bytes. *)
Theorem header_hashes_have_32_bytes (h : Core.BatchHeader)
        (bh : Core.BlobHeader) (commitment : list byte) :
  (exists bytes, Core.GetBatchHeaderHash h = Ok bytes /\ length bytes = 32%nat)
  /\ match Core.GetBlobHeaderHash bh with
     | Ok bytes => Core.CommitmentRoot bh <> None /\ length bytes = 32%nat
     | Err e => Core.CommitmentRoot bh = None /\ e = Core.ErrInvalidCommitment
     | Panic => False
     end
  /\ length (Core.GetCommitmentHash commitment) = 32%nat.
Proof.
  split; [|split].
  - unfold Core.GetBatchHeaderHash. rewrite Encode_abi.
    eexists. split; [reflexivity|].
    now rewrite firstn_32_Sum256, Sum256_length.
  - destruct bh as [[root|]].
    + rewrite GetBlobHeaderHash_some. split; [discriminate|].
      apply Sum256_length.
    + cbn. now split.
  - unfold Core.GetCommitmentHash.
    now rewrite firstn_32_Sum256, Sum256_length.
Qed.

Lemma copyInto_length (dst src : list byte) :
  length (Core.copyInto dst src) = length dst.
Proof.
  unfold Core.copyInto.
  rewrite length_app, length_firstn, length_skipn. lia.
Qed.

(** X2: [SetBatchRoot] changes the header only when it returns a tree, and
    then only the bytes of [BatchRoot], which are overwritten by the root of
    the tree and stay as many as they were; the reference block number is
    never touched. *)
Theorem SetBatchRoot_changes_root_only
        (MerkleTree : Type)
        (NewTree : list (list byte) -> outcome error MerkleTree)
        (Root : MerkleTree -> list byte)
        (h : Core.BatchHeader) (blobHeaders : list Core.BlobHeader) :
  length (Core.BatchRoot
            (fst (Core.SetBatchRoot MerkleTree NewTree Root h blobHeaders)))
  = length (Core.BatchRoot h)
  /\ Core.ReferenceBlockNumber
       (fst (Core.SetBatchRoot MerkleTree NewTree Root h blobHeaders))
     = Core.ReferenceBlockNumber h
  /\ match snd (Core.SetBatchRoot MerkleTree NewTree Root h blobHeaders) with
     | Ok tree =>
         Core.BatchRoot
           (fst (Core.SetBatchRoot MerkleTree NewTree Root h blobHeaders))
         = Core.copyInto (Core.BatchRoot h) (Root tree)
     | _ => fst (Core.SetBatchRoot MerkleTree NewTree Root h blobHeaders) = h
     end.
Proof.
  unfold Core.SetBatchRoot.
  destruct (Core.headerLeafs blobHeaders) as [leafs | e |]; cbn;
    [|now repeat split..].
  destruct (NewTree leafs) as [tree | e |]; cbn; [|now repeat split..].
  split; [apply copyInto_length|]. now split.
Qed.

Lemma headerLeafs_missing (blobHeaders : list Core.BlobHeader) :
  Exists (fun header => Core.CommitmentRoot header = None) blobHeaders ->
  Core.headerLeafs blobHeaders
  = Err (lit "failed to compute blob header hash: " ++ Core.ErrInvalidCommitment).
Proof.
  induction blobHeaders as [|[[root|]] rest IH]; intros Hex.
  - inversion Hex.
  - cbn [Core.headerLeafs]. rewrite GetBlobHeaderHash_some.
    rewrite IH; [reflexivity|].
    inversion Hex as [? ? Hd | ? ? Htl]; [discriminate Hd | exact Htl].
  - reflexivity.
Qed.

Lemma headerLeafs_complete (blobHeaders : list Core.BlobHeader) :
  Forall (fun header => Core.CommitmentRoot header <> None) blobHeaders ->
  Core.headerLeafs blobHeaders
  = Ok (map (fun header =>
               Keccak.Sum256 (default [] (Core.CommitmentRoot header)))
            blobHeaders).
Proof.
  induction 1 as [|[[root|]] rest Hroot _ IH]; [reflexivity| |contradiction].
  cbn [Core.headerLeafs map]. now rewrite GetBlobHeaderHash_some, IH.
Qed.

(** X3: a batch one of whose blob headers has no commitment root is
    refused with the wrapped [ErrInvalidCommitment], whatever the tree
    builder is (it is not reached), and the header keeps its root; when
    every header has its root, the leaves handed to the tree builder are
    the Keccak-256 digests of the roots, in the order of the headers. *)
Theorem SetBatchRoot_leafs
        (MerkleTree : Type)
        (NewTree : list (list byte) -> outcome error MerkleTree)
        (Root : MerkleTree -> list byte)
        (h : Core.BatchHeader) (blobHeaders : list Core.BlobHeader) :
  (Exists (fun header => Core.CommitmentRoot header = None) blobHeaders ->
   Core.SetBatchRoot MerkleTree NewTree Root h blobHeaders
   = (h, Err (lit "failed to compute blob header hash: invalid commitment")))
  /\ (Forall (fun header => Core.CommitmentRoot header <> None) blobHeaders ->
      Core.SetBatchRoot MerkleTree NewTree Root h blobHeaders
      = match NewTree (map (fun header =>
                              Keccak.Sum256
                                (default [] (Core.CommitmentRoot header)))
                           blobHeaders) with
        | Ok tree =>
            (Core.mkBatchHeader (Core.copyInto (Core.BatchRoot h) (Root tree))
                                (Core.ReferenceBlockNumber h), Ok tree)
        | Err err => (h, Err err)
        | Panic => (h, Panic)
        end).
Proof.
  split; intros Hhs; unfold Core.SetBatchRoot.
  - now rewrite (headerLeafs_missing _ Hhs).
  - now rewrite (headerLeafs_complete _ Hhs).
Qed.

Lemma SetBatchRoot_leafs_witness :
  Core.SetBatchRoot (list (list byte)) Demo.NewTree Demo.Root
    (Core.mkBatchHeader (repeat x00 32) 7)
    [Core.mkBlobHeader (Some [x01]); Core.mkBlobHeader None]
  = (Core.mkBatchHeader (repeat x00 32) 7,
     Err (lit "failed to compute blob header hash: invalid commitment"))
  /\ exists tree,
      Core.SetBatchRoot (list (list byte)) Demo.NewTree Demo.Root
        (Core.mkBatchHeader (repeat x00 32) 7)
        [Core.mkBlobHeader (Some [x01])]
      = (Core.mkBatchHeader (Demo.Root tree) 7, Ok tree).
Proof.
  split.
  - apply (proj1 (SetBatchRoot_leafs _ Demo.NewTree Demo.Root _ _)).
    apply Exists_cons_tl, Exists_cons_hd. reflexivity.
  - exists [Keccak.Sum256 [x01]].
    assert (Hcopy : Core.copyInto (repeat x00 32)
                                  (Demo.Root [Keccak.Sum256 [x01]])
                    = Demo.Root [Keccak.Sum256 [x01]]).
    { assert (Hlen : length (Demo.Root [Keccak.Sum256 [x01]]) = 32%nat)
        by apply Sum256_length.
      unfold Core.copyInto.
      rewrite firstn_all2 by (rewrite Hlen, repeat_length; lia).
      rewrite skipn_all2 by (rewrite Hlen, repeat_length; lia).
      apply app_nil_r. }
    rewrite (proj2 (SetBatchRoot_leafs _ Demo.NewTree Demo.Root _ _)).
    + cbn [map Demo.NewTree default Core.CommitmentRoot Core.BatchRoot
           Core.ReferenceBlockNumber].
      unfold id. now rewrite Hcopy.
    + constructor; [discriminate | constructor].
Defined.

(** X4: when [SetCommitmentRoot] succeeds the header holds the root of the
    tree over the digests of the commitments, and its hash is there: the
    Keccak-256 digest of that root; when it fails the header is as it
    was. *)
Theorem SetCommitmentRoot_then_hash
        (MerkleTree : Type)
        (NewTree : list (list byte) -> outcome error MerkleTree)
        (Root : MerkleTree -> list byte)
        (h : Core.BlobHeader) (commitments : list (list byte)) :
  match snd (Core.SetCommitmentRoot MerkleTree NewTree Root h commitments) with
  | Ok _ =>
      exists tree,
        NewTree (map Core.GetCommitmentHash commitments) = Ok tree
        /\ Core.CommitmentRoot
             (fst (Core.SetCommitmentRoot MerkleTree NewTree Root h commitments))
           = Some (Root tree)
        /\ Core.GetBlobHeaderHash
             (fst (Core.SetCommitmentRoot MerkleTree NewTree Root h commitments))
           = Ok (Keccak.Sum256 (Root tree))
  | _ => fst (Core.SetCommitmentRoot MerkleTree NewTree Root h commitments) = h
  end.
Proof.
  unfold Core.SetCommitmentRoot.
  destruct (NewTree (map Core.GetCommitmentHash commitments)) as [tree | e |];
    cbn; [|reflexivity..].
  exists tree. split; [reflexivity|]. split; [reflexivity|].
  apply GetBlobHeaderHash_some.
Qed.

(* ===================================================================== *)
(** * Further properties: the shape of the hashes of a key *)
(* ===================================================================== *)

Lemma encode_byte_digits (b : byte) :
  forallb Spec.isHexDigit (Hex.encode_byte b) = true.
Proof. destruct b; vm_compute; reflexivity. Qed.

Lemma EncodeToString_digits (l : list byte) :
  forallb Spec.isHexDigit (Hex.EncodeToString l) = true.
Proof.
  unfold Hex.EncodeToString. induction l as [|b l IH]; [reflexivity|].
  cbn [flat_map]. rewrite forallb_app, IH, encode_byte_digits. reflexivity.
Qed.

(** X5: the blob hash is a word of 64 lower-case hexadecimal digits, for
    every blob, the empty one included. *)
Theorem getBlobHash_shape (blob : Core.Blob) :
  length (Blobstore.getBlobHash blob) = 64%nat
  /\ forallb Spec.isHexDigit (Blobstore.getBlobHash blob) = true.
Proof.
  rewrite getBlobHash_eq. split; [|apply EncodeToString_digits].
  now rewrite HexFacts.EncodeToString_length, sha256_length.
Qed.

Lemma empty_digest :
  Hex.EncodeToString (Spec.sha256 [])
  = lit "e3b0c44298fc1c149afbf4c8996fb92427ae41e4649b934ca495991b7852b855".
Proof. vm_compute. reflexivity. Qed.

(** X6: the metadata hash never fails; it is the hex form of the string
    ["<requestedAt>/<QuorumID>/<AdversaryThreshold>/..."], two digits per
    character, followed by the same 64 digits for every input: the digest
    of the empty message.  So the string can be read back from the hash,
    and all of it is lower-case hexadecimal. *)
Theorem getMetadataHash_shape (requestedAt : N)
        (securityParams : list Core.SecurityParam) :
  exists hash,
    Blobstore.getMetadataHash requestedAt securityParams = Ok hash
    /\ hash
       = Hex.EncodeToString (Spec.metadataString requestedAt securityParams)
         ++ lit "e3b0c44298fc1c149afbf4c8996fb92427ae41e4649b934ca495991b7852b855"
    /\ length hash
       = (2 * length (Spec.metadataString requestedAt securityParams) + 64)%nat
    /\ forallb Spec.isHexDigit hash = true.
Proof.
  rewrite getMetadataHash_eq. eexists. split; [reflexivity|].
  split; [now rewrite HexFacts.EncodeToString_app, empty_digest|].
  split; [|apply EncodeToString_digits].
  rewrite HexFacts.EncodeToString_length, length_app, sha256_length. lia.
Qed.

(* ===================================================================== *)
(** * Further properties: the shared blob store *)
(* ===================================================================== *)

Section StoreFacts.
Import Core Disperser Blobstore.

(** The record that [StoreBlob] queues. *)
Local Abbreviation queued blob requestedAt now s key :=
  (mkBlobMetadata (KeyBlobHash key) (KeyMetadataHash key) Processing 0
     (if (0 <? ttl (blobMetadataStore s))
      then Z.to_N (uint64 (Unix (now + ttl (blobMetadataStore s))))
      else 0%N)
     (Some (mkRequestMetadata (RequestHeader blob)
                              (N.of_nat (length (Data blob))) requestedAt))
     None).

(** A key was returned: both services answered, and the store is the old
    one with the object and the record added. *)
Lemma StoreBlob_inv (s s' : SharedBlobStore) (b : Blob) (r : N) (now : Z)
      (k : BlobKey) :
  StoreBlob s (Some b) r now = (s', Ok k) ->
  s3_up (s3Client s) = true
  /\ table_up (blobMetadataStore s) = true
  /\ s' = mkSharedBlobStore
            (mkS3 (<[Spec.objectKey (metadataHashAsBlobKey s) (queued b r now s k)
                     := Data b]> (objects (s3Client s))) true)
            (mkMetadataStore (<[keyOf k := queued b r now s k]>
                                (table (blobMetadataStore s)))
                             (ttl (blobMetadataStore s)) true)
            (metadataHashAsBlobKey s).
Proof.
  unfold StoreBlob. rewrite getMetadataHash_eq.
  unfold UploadObject, QueueNewBlobMetadata.
  destruct (metadataHashAsBlobKey s) eqn:Hmode;
    (destruct (s3_up (s3Client s)) eqn:Hs3; [|discriminate]);
    cbn [withS3 blobMetadataStore s3Client];
    (destruct (table_up (blobMetadataStore s)) eqn:Htab; [|discriminate]);
    intros Heq; injection Heq as <- <-;
    (split; [reflexivity|]); (split; [reflexivity|]);
    unfold withMetadataStore, withS3; cbn; now rewrite Hmode.
Qed.

(** An error was returned: the metadata table is as it was. *)
Lemma StoreBlob_error_table (s : SharedBlobStore) (blob : option Blob)
      (r : N) (now : Z) :
  (forall k, snd (StoreBlob s blob r now) <> Ok k) ->
  blobMetadataStore (fst (StoreBlob s blob r now)) = blobMetadataStore s.
Proof.
  unfold StoreBlob. destruct blob as [b|]; [|reflexivity].
  rewrite getMetadataHash_eq. unfold UploadObject, QueueNewBlobMetadata.
  destruct (metadataHashAsBlobKey s);
    (destruct (s3_up (s3Client s)); [|reflexivity]);
    cbn [withS3 blobMetadataStore s3Client];
    (destruct (table_up (blobMetadataStore s)) eqn:Htab;
     [|intros _; reflexivity]);
    intros Hne; now destruct (Hne _ eq_refl).
Qed.

(** X7: what a successful [StoreBlob] has written can be read back, in
    either mode: the lookup of the returned key yields a record with that
    key, in status [Processing], not retried, without confirmation, with
    the request header, the size of the data and [requestedAt]; and
    [GetBlobContent] on that record yields the data. *)
Theorem StoreBlob_then_read (s s' : SharedBlobStore) (b : Blob) (r : N)
        (now : Z) (k : BlobKey) :
  StoreBlob s (Some b) r now = (s', Ok k) ->
  exists m,
    GetBlobMetadata s' k = (Some m, None)
    /\ GetBlobKey m = k
    /\ Status m = Processing
    /\ NumRetries m = 0%N
    /\ Confirmation m = None
    /\ Request m = Some (mkRequestMetadata (RequestHeader b)
                           (N.of_nat (length (Data b))) r)
    /\ GetBlobContent s' m = Ok (Data b).
Proof.
  intros Hstore. apply StoreBlob_inv in Hstore as (_ & _ & ->).
  eexists. split.
  { unfold GetBlobMetadata, StoreGetBlobMetadata. cbn.
    now rewrite lookup_insert_eq. }
  split; [now destruct k|]. do 4 (split; [reflexivity|]).
  unfold GetBlobContent, DownloadObject, Spec.objectKey. cbn.
  destruct (metadataHashAsBlobKey s); cbn; now rewrite lookup_insert_eq.
Qed.

(** X8: the two ways [StoreBlob] fails.  With the object store down,
    nothing is written.  With the object store up and the metadata table
    down, the object has been uploaded and the table is as it was: the
    object is written before the record. *)
Theorem StoreBlob_failures (s : SharedBlobStore) (b : Blob) (r : N) (now : Z) :
  (s3_up (s3Client s) = false ->
   StoreBlob s (Some b) r now = (s, Err errStorage))
  /\ (s3_up (s3Client s) = true ->
      table_up (blobMetadataStore s) = false ->
      exists s' key,
        StoreBlob s (Some b) r now = (s', Err errStorage)
        /\ blobMetadataStore s' = blobMetadataStore s
        /\ objects (s3Client s') !! key = Some (Data b)
        /\ key = (if metadataHashAsBlobKey s
                  then Hex.EncodeToString
                         (Spec.metadataString r (SecurityParams (RequestHeader b))
                            ++ Spec.sha256 [])
                  else blobObjectKey (getBlobHash b))).
Proof.
  split.
  - intros Hs3. unfold StoreBlob. rewrite getMetadataHash_eq.
    unfold UploadObject. rewrite Hs3.
    destruct (metadataHashAsBlobKey s); cbn; now destruct s.
  - intros Hs3 Htab. unfold StoreBlob. rewrite getMetadataHash_eq.
    unfold UploadObject, QueueNewBlobMetadata. rewrite Hs3.
    destruct (metadataHashAsBlobKey s);
      cbn [withS3 blobMetadataStore s3Client]; rewrite Htab;
      eexists; eexists; (split; [reflexivity|]); cbn;
      (split; [now destruct (blobMetadataStore s)|]);
      (split; [apply lookup_insert_eq | reflexivity]).
Qed.
End StoreFacts.

Lemma StoreBlob_then_read_witness :
  exists s' k m,
    Blobstore.StoreBlob (Demo.store true) (Some (Demo.blobWithThreshold 50)) 7 0
    = (s', Ok k)
    /\ Blobstore.GetBlobMetadata s' k = (Some m, None)
    /\ Blobstore.GetBlobContent s' m = Ok (lit "a").
Proof.
  destruct (StoreBlob_available (Demo.store true) (Demo.blobWithThreshold 50)
              7 0 eq_refl eq_refl) as (s' & k & Hstore & _).
  destruct (StoreBlob_then_read _ _ _ _ _ _ Hstore)
    as (m & Hget & _ & _ & _ & _ & _ & Hread).
  now exists s', k, m.
Defined.

Lemma StoreBlob_failures_witness :
  Blobstore.StoreBlob Demo.s3Down (Some (Demo.blobWithThreshold 50)) 7 0
  = (Demo.s3Down, Err Blobstore.errStorage)
  /\ exists s',
      Blobstore.StoreBlob Demo.tableDown (Some (Demo.blobWithThreshold 50)) 7 0
      = (s', Err Blobstore.errStorage)
      /\ Blobstore.table (Blobstore.blobMetadataStore s') = ∅
      /\ Blobstore.objects (Blobstore.s3Client s')
           !! Blobstore.blobObjectKey
                (Blobstore.getBlobHash (Demo.blobWithThreshold 50))
         = Some (lit "a").
Proof.
  split.
  - apply (proj1 (StoreBlob_failures Demo.s3Down (Demo.blobWithThreshold 50) 7 0)).
    reflexivity.
  - destruct (proj2 (StoreBlob_failures Demo.tableDown
                       (Demo.blobWithThreshold 50) 7 0) eq_refl eq_refl)
      as (s' & key & Hrun & Htab & Hobj & ->).
    exists s'. split; [exact Hrun|]. split; [now rewrite Htab | exact Hobj].
Defined.

Section StoreInvariant.
Import Core Disperser Blobstore.

Lemma is_Some_insert (objs : gmap gostring (list byte)) (k k' : gostring)
      (v : list byte) :
  is_Some (objs !! k) -> is_Some (<[k' := v]> objs !! k).
Proof.
  intros Hk. destruct (decide (k' = k)) as [-> | Hne].
  - rewrite lookup_insert_eq. now eexists.
  - now rewrite lookup_insert_ne.
Qed.

(** X9: [StoreBlob] keeps the invariant that every record of the metadata
    table has its object in the object store, whatever it returns: a key,
    an error from either service, or the error for a nil blob. *)
Theorem StoreBlob_keeps_objects (s : SharedBlobStore) (blob : option Blob)
        (r : N) (now : Z) :
  Spec.recordsHaveObjects s ->
  Spec.recordsHaveObjects (fst (StoreBlob s blob r now)).
Proof.
  intros Hinv. destruct blob as [b|]; [|exact Hinv].
  destruct (StoreBlob s (Some b) r now) as [s' [k | e |]] eqn:Hrun.
  - apply StoreBlob_inv in Hrun as (_ & _ & ->).
    intros key m. cbn. intros Hm.
    destruct (decide (keyOf k = key)) as [<- | Hne].
    + rewrite lookup_insert_eq in Hm. injection Hm as <-.
      rewrite lookup_insert_eq. now eexists.
    + rewrite lookup_insert_ne in Hm by exact Hne.
      apply is_Some_insert. now apply (Hinv key).
  - revert Hrun. unfold StoreBlob. rewrite getMetadataHash_eq.
    unfold UploadObject, QueueNewBlobMetadata.
    destruct (metadataHashAsBlobKey s) eqn:Hmode;
      (destruct (s3_up (s3Client s));
       [|intros Heq; injection Heq as <- _; intros key m; cbn;
         rewrite Hmode; rewrite <- Hmode; apply Hinv]);
      cbn [withS3 blobMetadataStore s3Client];
      (destruct (table_up (blobMetadataStore s)); [discriminate|]);
      intros Heq; injection Heq as <- _; intros key m; cbn; rewrite Hmode;
      intros Hm; apply is_Some_insert;
      specialize (Hinv key m Hm); now rewrite Hmode in Hinv.
  - revert Hrun. unfold StoreBlob. rewrite getMetadataHash_eq.
    unfold UploadObject, QueueNewBlobMetadata.
    destruct (metadataHashAsBlobKey s); destruct (s3_up (s3Client s));
      cbn [withS3 blobMetadataStore s3Client];
      try destruct (table_up (blobMetadataStore s)); discriminate.
Qed.
End StoreInvariant.

Lemma StoreBlob_keeps_objects_witness :
  Spec.recordsHaveObjects
    (fst (Blobstore.StoreBlob Demo.emptyStore
            (Some (Demo.blobWithThreshold 50)) 7 0)).
Proof.
  apply StoreBlob_keeps_objects.
  intros key m Hm. cbn in Hm. rewrite lookup_empty in Hm. discriminate.
Defined.

Section StoreRemoval.
Import Core Disperser Blobstore.

(** No word of hexadecimal digits is the object key of a blob hash. *)
Lemma hex_not_object_key (l : list byte) (blobHash : gostring) :
  Hex.EncodeToString l <> blobObjectKey blobHash.
Proof.
  intros Heq. apply (f_equal (forallb Spec.isHexDigit)) in Heq.
  rewrite EncodeToString_digits in Heq.
  unfold blobObjectKey in Heq.
  change (lit "blob/") with ["b"; "l"; "o"; "b"; "/"]%byte in Heq.
  cbn [app forallb] in Heq.
  change (Spec.isHexDigit "b") with true in Heq.
  change (Spec.isHexDigit "l") with false in Heq.
  discriminate.
Qed.

(** X10: removing the record that a successful [StoreBlob] has queued
    succeeds and leaves no record under the key.  The object that
    [RemoveBlob] deletes is the one named by the metadata hash: with the
    metadata hash as blob key the content is gone with the record; in the
    other mode the object lies under ["blob/<BlobHash>.json"], is not
    deleted, and [GetBlobContent] still yields the data. *)
Theorem RemoveBlob_after_StoreBlob (s s' : SharedBlobStore) (b : Blob)
        (r : N) (now : Z) (k : BlobKey) (m : BlobMetadata) :
  StoreBlob s (Some b) r now = (s', Ok k) ->
  table (blobMetadataStore s') !! keyOf k = Some m ->
  exists s'',
    RemoveBlob s' m = (s'', None)
    /\ table (blobMetadataStore s'') !! keyOf k = None
    /\ GetBlobContent s'' m
       = (if metadataHashAsBlobKey s then Err errNoSuchKey else Ok (Data b)).
Proof.
  intros Hstore Hm.
  pose proof (StoreBlob_key _ _ _ _ _ _ Hstore) as Hk.
  apply StoreBlob_inv in Hstore as (_ & _ & ->).
  cbn in Hm. rewrite lookup_insert_eq in Hm. injection Hm as <-.
  unfold RemoveBlob, DeleteObject, RemoveBlobMetadata. cbn.
  eexists. split; [reflexivity|]. cbn.
  replace (keyOf (GetBlobKey _)) with (keyOf k) by now destruct k.
  split; [apply lookup_delete_eq|].
  unfold GetBlobContent, DownloadObject, Spec.objectKey. cbn.
  destruct (metadataHashAsBlobKey s); cbn.
  - now rewrite lookup_delete_eq.
  - rewrite lookup_delete_ne, lookup_insert_eq; [reflexivity|].
    rewrite Hk. cbn. apply hex_not_object_key.
Qed.

(** X11: [MarkBlobConfirmed] hands back the record with the same key,
    retries and request, in status [Confirmed], with the confirmation
    attached and an expiry that is not earlier than before.  If the table
    answers, the lookup of the key then yields that record; if not, the
    store is as it was and the error is returned beside the record. *)
Theorem MarkBlobConfirmed_record (s : SharedBlobStore) (m : BlobMetadata)
        (ci : ConfirmationInfo) (now : Z) :
  let s' := fst (fst (MarkBlobConfirmed s m ci now)) in
  let m' := snd (fst (MarkBlobConfirmed s m ci now)) in
  let err := snd (MarkBlobConfirmed s m ci now) in
  GetBlobKey m' = GetBlobKey m
  /\ Status m' = Confirmed
  /\ Confirmation m' = Some ci
  /\ NumRetries m' = NumRetries m
  /\ Request m' = Request m
  /\ (Expiry m <= Expiry m')%N
  /\ (if table_up (blobMetadataStore s)
      then err = None /\ GetBlobMetadata s' (GetBlobKey m) = (Some m', None)
      else err = Some errStorage /\ blobMetadataStore s' = blobMetadataStore s
           /\ s3Client s' = s3Client s).
Proof.
  unfold MarkBlobConfirmed, UpdateBlobMetadata.
  destruct (table_up (blobMetadataStore s)) eqn:Hup; cbn.
  - do 5 (split; [reflexivity|]).
    split; [now destruct (N.ltb_spec (Expiry m)
                            (Z.to_N (uint64 (Unix (now + ttl (blobMetadataStore s)))))); lia|].
    split; [reflexivity|].
    unfold GetBlobMetadata, StoreGetBlobMetadata. cbn. rewrite ?Hup.
    now rewrite lookup_insert_eq.
  - do 5 (split; [reflexivity|]).
    split; [now destruct (N.ltb_spec (Expiry m)
                            (Z.to_N (uint64 (Unix (now + ttl (blobMetadataStore s)))))); lia|].
    now repeat split.
Qed.
End StoreRemoval.

Lemma RemoveBlob_after_StoreBlob_witness :
  exists s' k m s'',
    Blobstore.StoreBlob (Demo.store false) (Some (Demo.blobWithThreshold 50)) 7 0
    = (s', Ok k)
    /\ Blobstore.RemoveBlob s' m = (s'', None)
    /\ Blobstore.GetBlobMetadata s'' k = (None, Some Blobstore.errNotFound)
    /\ Blobstore.GetBlobContent s'' m = Ok (lit "a").
Proof.
  destruct (StoreBlob_available (Demo.store false) (Demo.blobWithThreshold 50)
              7 0 eq_refl eq_refl) as (s' & k & Hstore & m & Hm & _).
  destruct (RemoveBlob_after_StoreBlob _ _ _ _ _ _ m Hstore Hm)
    as (s'' & Hrm & Hgone & Hread).
  exists s', k, m, s''. split; [exact Hstore|]. split; [exact Hrm|].
  split; [|exact Hread].
  unfold Blobstore.GetBlobMetadata, Blobstore.StoreGetBlobMetadata.
  rewrite Hgone.
  assert (Hup : Blobstore.table_up (Blobstore.blobMetadataStore s'') = true).
  { apply StoreBlob_inv in Hstore as (_ & _ & ->).
    unfold Blobstore.RemoveBlob, Blobstore.DeleteObject,
      Blobstore.RemoveBlobMetadata in Hrm.
    cbn in Hrm. injection Hrm as <-. reflexivity. }
  now rewrite Hup.
Defined.

Section RetrySequence.
Import Core Disperser Blobstore.

Lemma HandleBlobFailure_step (s : SharedBlobStore) (m : BlobMetadata)
      (maxRetry : N) :
  table_up (blobMetadataStore s) = true ->
  table (blobMetadataStore s) !! keyOf (GetBlobKey m) = Some m ->
  HandleBlobFailure s m maxRetry
  = (withMetadataStore s
       (mkMetadataStore
          (<[keyOf (GetBlobKey m) :=
               if (NumRetries m <? maxRetry)%N
               then withNumRetries m ((NumRetries m + 1) mod 2 ^ 64)%N
               else withStatus m Failed]> (table (blobMetadataStore s)))
          (ttl (blobMetadataStore s)) (table_up (blobMetadataStore s))),
     None).
Proof.
  intros Hup Hm. unfold HandleBlobFailure.
  destruct (NumRetries m <? maxRetry)%N.
  - unfold IncrementBlobRetryCount, IncrementNumRetries.
    now rewrite (alterRecord_found _ _ _ m Hup Hm).
  - unfold MarkBlobFailed, SetBlobStatus.
    now rewrite (alterRecord_found _ _ _ m Hup Hm).
Qed.

(** X12: the record of a blob after [n] failures in a row, starting from a
    record with no more than [maxRetry] retries: while the retries so far
    plus [n] do not exceed [maxRetry], only the count has grown, by [n];
    from then on the status is [Failed] and the count stays at
    [maxRetry].  With the default bound 2, a fresh blob is [Failed] after
    its third failure. *)
Theorem failures_closed_form (n : nat) :
  forall (s : SharedBlobStore) (m : BlobMetadata) (maxRetry : N),
    table_up (blobMetadataStore s) = true ->
    table (blobMetadataStore s) !! keyOf (GetBlobKey m) = Some m ->
    (NumRetries m <= maxRetry)%N ->
    (maxRetry < 2 ^ 64)%N ->
    table (blobMetadataStore (Spec.failures n s (GetBlobKey m) maxRetry))
      !! keyOf (GetBlobKey m)
    = Some (if (NumRetries m + N.of_nat n <=? maxRetry)%N
            then withNumRetries m (NumRetries m + N.of_nat n)
            else withStatus (withNumRetries m maxRetry) Failed).
Proof.
  induction n as [|n IH]; intros s m maxRetry Hup Hm Hle Hmax.
  - cbn [Spec.failures]. rewrite Hm. f_equal.
    replace (NumRetries m + N.of_nat 0)%N with (NumRetries m) by lia.
    destruct (N.leb_spec (NumRetries m) maxRetry); [|lia]. now destruct m.
  - cbn [Spec.failures]. rewrite Hm.
    rewrite (HandleBlobFailure_step s m maxRetry Hup Hm). cbn [fst].
    destruct (N.ltb_spec (NumRetries m) maxRetry) as [Hlt | Hge].
    + rewrite N.mod_small by lia.
      set (m' := withNumRetries m (NumRetries m + 1)).
      change (GetBlobKey m) with (GetBlobKey m').
      rewrite IH; [| exact Hup | apply lookup_insert_eq | cbn; lia | exact Hmax].
      f_equal. subst m'. cbn [NumRetries withNumRetries].
      replace (NumRetries m + 1 + N.of_nat n)%N
        with (NumRetries m + N.of_nat (Datatypes.S n))%N by lia.
      now destruct (_ <=? _)%N.
    + assert (Heq : NumRetries m = maxRetry) by lia.
      set (m' := withStatus m Failed).
      change (GetBlobKey m) with (GetBlobKey m').
      rewrite IH; [| exact Hup | apply lookup_insert_eq | cbn; lia | exact Hmax].
      f_equal. subst m'. cbn [NumRetries withStatus].
      destruct (N.leb_spec (NumRetries m + N.of_nat (Datatypes.S n)) maxRetry);
        [lia|].
      destruct (N.leb_spec (NumRetries m + N.of_nat n) maxRetry).
      * assert (Hn : N.of_nat n = 0%N) by lia. rewrite Hn, N.add_0_r.
        rewrite <- Heq. now destruct m.
      * reflexivity.
Qed.
End RetrySequence.

Lemma failures_closed_form_witness :
  exists m,
    Blobstore.table
      (Blobstore.blobMetadataStore
         (Spec.failures 3 (Demo.storeOf Demo.fresh)
                        (Disperser.GetBlobKey Demo.fresh) 2))
      !! Blobstore.keyOf (Disperser.GetBlobKey Demo.fresh) = Some m
    /\ Disperser.Status m = Disperser.Failed
    /\ Disperser.NumRetries m = 2%N.
Proof.
  eexists. split.
  - apply (failures_closed_form 3 (Demo.storeOf Demo.fresh) Demo.fresh 2).
    + reflexivity.
    + apply lookup_singleton_eq.
    + vm_compute. discriminate.
    + reflexivity.
  - split; reflexivity.
Defined.

Section Fetching.
Import Core Disperser Blobstore.

Lemma getBlobContentParallel_ok (s : SharedBlobStore) (m : BlobMetadata)
      (k : BlobKey) (blob : Blob) :
  getBlobContentParallel s m = Ok (k, blob) ->
  k = GetBlobKey m
  /\ GetBlobContent s m = Ok (Data blob)
  /\ (exists rm, Request m = Some rm
                 /\ RequestHeader blob = BlobRequestHeader rm).
Proof.
  unfold getBlobContentParallel, GetBlobContent.
  destruct (Request m) as [rm|]; [|discriminate].
  cbn [GetBlobKey KeyMetadataHash KeyBlobHash].
  destruct (metadataHashAsBlobKey s).
  - destruct (DownloadObject _ _); intros [= <- <-]; eauto.
  - destruct (DownloadObject _ _); intros [= <- <-]; eauto.
Qed.

Lemma getBlobContentParallel_err (s : SharedBlobStore) (m : BlobMetadata)
      (e : error) :
  getBlobContentParallel s m = Err e -> GetBlobContent s m = Err e.
Proof.
  unfold getBlobContentParallel, GetBlobContent.
  destruct (Request m) as [rm|]; [|discriminate].
  cbn [GetBlobKey KeyMetadataHash KeyBlobHash].
  destruct (metadataHashAsBlobKey s);
    destruct (DownloadObject _ _); now intros [= <-].
Qed.

Lemma getBlobContentParallel_faults (s : SharedBlobStore) (m : BlobMetadata) :
  getBlobContentParallel s m = Panic -> Request m = None.
Proof.
  unfold getBlobContentParallel.
  destruct (Request m) as [rm|]; [|reflexivity].
  unfold DownloadObject.
  destruct (metadataHashAsBlobKey s); destruct (s3_up _);
    try destruct (_ !! _); discriminate.
Qed.

(** The object read for a record depends on its key alone. *)
Lemma GetBlobContent_key (s : SharedBlobStore) (m m' : BlobMetadata) :
  keyOf (GetBlobKey m) = keyOf (GetBlobKey m') ->
  GetBlobContent s m = GetBlobContent s m'.
Proof.
  unfold keyOf, GetBlobKey, GetBlobContent. cbn. now intros [= -> ->].
Qed.

Lemma collectBlobs_spec (s : SharedBlobStore) (l : list BlobMetadata) :
  forall acc : gmap (gostring * gostring) Blob,
    match collectBlobs (map (getBlobContentParallel s) l) acc with
    | Ok blobs =>
        (forall m, In m l ->
           exists blob, blobs !! keyOf (GetBlobKey m) = Some blob
                        /\ GetBlobContent s m = Ok (Data blob))
        /\ (forall key blob, acc !! key = Some blob ->
              (forall m, In m l -> keyOf (GetBlobKey m) <> key) ->
              blobs !! key = Some blob)
        /\ (forall key blob, blobs !! key = Some blob ->
              acc !! key = Some blob
              \/ exists m rm, In m l /\ keyOf (GetBlobKey m) = key
                              /\ Request m = Some rm
                              /\ RequestHeader blob = BlobRequestHeader rm)
    | Err e => exists m, In m l /\ GetBlobContent s m = Err e
    | Panic => exists m, In m l /\ Request m = None
    end.
Proof.
  induction l as [|m l IH]; intros acc.
  - cbn. split; [intros m []|]. split; [tauto|]. intros; now left.
  - cbn [map collectBlobs].
    destruct (getBlobContentParallel s m) as [[k blob]|e|] eqn:Hm.
    + apply getBlobContentParallel_ok in Hm as (-> & Hdata & rm & Hrm & Hhdr).
      specialize (IH (<[keyOf (GetBlobKey m) := blob]> acc)).
      destruct (collectBlobs _ _) as [blobs|e|].
      * destruct IH as (Hin & Hkeep & Hfrom).
        split; [|split].
        -- intros m' [<- | Hm']; [|now apply Hin].
           destruct (decide (Exists (fun m2 => keyOf (GetBlobKey m2)
                                            = keyOf (GetBlobKey m)) l))
             as [Hsome | Hnone];
             rewrite List.Exists_exists in *.
           ++ destruct Hsome as (m2 & Hm2 & Hk). destruct (Hin m2 Hm2) as (b2 & Hb2 & Hd2).
              exists b2. rewrite <- Hk. split; [exact Hb2|].
              now rewrite (GetBlobContent_key s m m2).
           ++ exists blob. split; [|exact Hdata].
              apply Hkeep; [apply lookup_insert_eq|].
              intros m2 Hm2 Hk. apply Hnone. eauto.
        -- intros key b Hb Hfree. apply Hkeep.
           ++ rewrite lookup_insert_ne; [exact Hb|]. apply Hfree. now left.
           ++ intros m2 Hm2. apply Hfree. now right.
        -- intros key b Hb. destruct (Hfrom key b Hb) as [Hacc | Hex].
           ++ destruct (decide (keyOf (GetBlobKey m) = key)) as [<- | Hne].
              ** rewrite lookup_insert_eq in Hacc. injection Hacc as <-.
                 right. exists m, rm. split; [now left|]. auto.
              ** rewrite lookup_insert_ne in Hacc by exact Hne. now left.
           ++ destruct Hex as (m2 & rm2 & Hm2 & Hrest).
              right. exists m2, rm2. split; [now right | exact Hrest].
      * destruct IH as (m2 & Hm2 & He). exists m2. split; [now right | exact He].
      * destruct IH as (m2 & Hm2 & He). exists m2. split; [now right | exact He].
    + exists m. split; [now left|]. now apply getBlobContentParallel_err in Hm.
    + exists m. split; [now left|]. now apply getBlobContentParallel_faults in Hm.
Qed.

Lemma nil_request_found (l : list BlobMetadata) :
  forallb (fun m => bool_decide (is_Some (Request m))) l = false ->
  exists m, In m l /\ Request m = None.
Proof.
  induction l as [|m l IH]; [discriminate|]. cbn [forallb].
  destruct (Request m) as [rm|] eqn:Hrm.
  - rewrite bool_decide_eq_true_2 by eauto. cbn. intros H.
    destruct (IH H) as (m' & Hm' & Hnil). exists m'. split; [now right | exact Hnil].
  - intros _. exists m. split; [now left | exact Hrm].
Qed.

(** X13: [GetBlobsByMetadata] is all or nothing, in whatever order the
    workers finish.  When it returns a map, every record asked for has its
    key in the map, with the content of the object of that record, and
    every entry of the map comes from a record asked for, whose request
    header it carries; when it returns an error, that is the error of
    fetching one of the records; and it faults only on a record with no
    request metadata. *)
Theorem GetBlobsByMetadata_all_or_nothing
        (s : SharedBlobStore) (metadata completed : list BlobMetadata) :
  Permutation metadata completed ->
  match GetBlobsByMetadata s completed with
  | Ok blobs =>
      (forall m, In m metadata ->
         exists blob, blobs !! keyOf (GetBlobKey m) = Some blob
                      /\ GetBlobContent s m = Ok (Data blob))
      /\ (forall key blob, blobs !! key = Some blob ->
            exists m rm, In m metadata /\ keyOf (GetBlobKey m) = key
                         /\ Request m = Some rm
                         /\ RequestHeader blob = BlobRequestHeader rm)
  | Err e => exists m, In m metadata /\ GetBlobContent s m = Err e
  | Panic => exists m, In m metadata /\ Request m = None
  end.
Proof.
  intros Hperm. unfold GetBlobsByMetadata.
  assert (Hin : forall m, In m completed -> In m metadata).
  { intros m Hm. apply (Permutation_in _ (Permutation_sym Hperm) Hm). }
  assert (Hin' : forall m, In m metadata -> In m completed).
  { intros m Hm. apply (Permutation_in _ Hperm Hm). }
  destruct (forallb _ completed) eqn:Hall.
  - pose proof (collectBlobs_spec s completed ∅) as H.
    destruct (collectBlobs _ _) as [blobs|e|].
    + destruct H as (Hget & _ & Hfrom). split.
      * intros m Hm. apply Hget, Hin', Hm.
      * intros key blob Hb. destruct (Hfrom key blob Hb) as [Hemp | Hex].
        -- now rewrite lookup_empty in Hemp.
        -- destruct Hex as (m & rm & Hm & Hrest). exists m, rm.
           split; [apply Hin, Hm | exact Hrest].
    + destruct H as (m & Hm & He). exists m. split; [apply Hin, Hm | exact He].
    + destruct H as (m & Hm & He). exists m. split; [apply Hin, Hm | exact He].
  - destruct (nil_request_found _ Hall) as (m & Hm & Hnil).
    exists m. split; [apply Hin, Hm | exact Hnil].
Qed.
End Fetching.

Lemma GetBlobsByMetadata_all_or_nothing_witness :
  Permutation [Demo.first; Demo.second] [Demo.second; Demo.first]
  /\ match Blobstore.GetBlobsByMetadata Demo.twoObjects
                                        [Demo.second; Demo.first] with
     | Ok blobs =>
         (forall m, In m [Demo.first; Demo.second] ->
            exists blob,
              blobs !! Blobstore.keyOf (Disperser.GetBlobKey m) = Some blob
              /\ Blobstore.GetBlobContent Demo.twoObjects m
                 = Ok (Core.Data blob))
         /\ (forall key blob, blobs !! key = Some blob ->
               exists m rm,
                 In m [Demo.first; Demo.second]
                 /\ Blobstore.keyOf (Disperser.GetBlobKey m) = key
                 /\ Disperser.Request m = Some rm
                 /\ Core.RequestHeader blob = Disperser.BlobRequestHeader rm)
     | Err e =>
         exists m, In m [Demo.first; Demo.second]
                   /\ Blobstore.GetBlobContent Demo.twoObjects m = Err e
     | Panic =>
         exists m, In m [Demo.first; Demo.second]
                   /\ Disperser.Request m = None
     end.
Proof.
  split; [apply perm_swap|].
  apply (GetBlobsByMetadata_all_or_nothing
           Demo.twoObjects [Demo.first; Demo.second]
           [Demo.second; Demo.first]).
  apply perm_swap.
Defined.

(* ===================================================================== *)
(** * Further properties: the dispersal server *)
(* ===================================================================== *)

(** The object of a record is found by its key, so after [StoreBlob] any
    record with the returned key leads to the data. *)
Lemma StoreBlob_content (s s' : Blobstore.SharedBlobStore) (b : Core.Blob)
      (r : N) (now : Z) (k : Disperser.BlobKey) (m : Disperser.BlobMetadata) :
  Blobstore.StoreBlob s (Some b) r now = (s', Ok k) ->
  Disperser.GetBlobKey m = k ->
  Blobstore.GetBlobContent s' m = Ok (Core.Data b).
Proof.
  intros Hstore Hk. apply StoreBlob_inv in Hstore as (_ & _ & ->).
  unfold Blobstore.GetBlobContent, Blobstore.DownloadObject, Spec.objectKey.
  cbn. rewrite <- Hk.
  destruct (Blobstore.metadataHashAsBlobKey s); cbn;
    now rewrite lookup_insert_eq.
Qed.

Lemma StoreBlob_lookup (s s' : Blobstore.SharedBlobStore) (b : Core.Blob)
      (r : N) (now : Z) (k : Disperser.BlobKey) :
  Blobstore.StoreBlob s (Some b) r now = (s', Ok k) ->
  exists m,
    Blobstore.GetBlobMetadata s' k = (Some m, None)
    /\ Disperser.GetBlobKey m = k
    /\ Disperser.Status m = Disperser.Processing.
Proof.
  intros Hstore. apply StoreBlob_inv in Hstore as (_ & _ & ->).
  eexists. split.
  { unfold Blobstore.GetBlobMetadata, Blobstore.StoreGetBlobMetadata. cbn.
    now rewrite lookup_insert_eq. }
  split; [now destruct k | reflexivity].
Qed.

Lemma skipn_repeat {A : Type} (x : A) (n k : nat) :
  skipn k (repeat x n) = repeat x (n - k).
Proof.
  revert k. induction n as [|n IH]; intros [|k]; cbn; try reflexivity.
  apply IH.
Qed.

Lemma mod64_mod32 (n : N) : ((n mod 2 ^ 64) mod 2 ^ 32 = n mod 2 ^ 32)%N.
Proof.
  change (2 ^ 64)%N with (2 ^ 32 * 2 ^ 32)%N.
  rewrite N.Div0.mod_mul_r, N.mul_comm, N.Div0.mod_add.
  apply N.Div0.mod_mod.
Qed.

Section Service.
Variable MaxBlobSize : N.
Variable context : Type.
Variable GetClientAddress : context -> gostring -> Z -> bool -> outcome error gostring.
Variable ParseBlobKey : gostring -> outcome error Disperser.BlobKey.
Variable IsConfirmed : option Disperser.BlobMetadata -> outcome error bool.
Variable Deserialize : list byte -> outcome error Disperser.BlobMetadata.
Variable GetBlobMetadataInBatch :
  Blobstore.BlobMetadataStore -> list byte -> N
  -> outcome error Disperser.BlobMetadata.
Variable float32 : Type.
Context {S : Type} `{KVStore Ratelimit.RateBucketParams S}.

Local Abbreviation Server := (Apiserver.DispersalServer float32 (S := S)).
Local Abbreviation DisperseBlob :=
  (Apiserver.DisperseBlob MaxBlobSize context GetClientAddress float32).
Local Abbreviation GetBlobStatus :=
  (Apiserver.GetBlobStatus ParseBlobKey IsConfirmed Deserialize float32).
Local Abbreviation RetrieveBlob :=
  (Apiserver.RetrieveBlob GetBlobMetadataInBatch float32).
Local Abbreviation storeOfRequest s clk req :=
  (Blobstore.StoreBlob (Apiserver.blobStore float32 s)
                       (Some (Apiserver.getBlobFromRequest req))
                       (Z.to_N (uint64 (Apiserver.nowRequest clk)))
                       (Apiserver.nowStore clk)).

(** X14: the status of a blob that has just been dispersed.  When
    [DisperseBlob] has stored a request, the status query on the server it
    leaves, with the request id of the reply, answers PROCESSING without
    blob info, in either mode and whatever the KV holds; provided
    [ParseBlobKey] reads the printed key back and [IsConfirmed] answers no
    for a [Processing] record. *)
Theorem DisperseBlob_then_GetBlobStatus (s : Server) (ctx : context)
        (clk : Apiserver.clock) (req : Pb.DisperseBlobRequest)
        (origin : gostring) (b : Blobstore.SharedBlobStore)
        (key : Disperser.BlobKey) :
  (1 <= N.of_nat (length (Pb.Data req)) <= MaxBlobSize)%N ->
  GetClientAddress ctx (Apiserver.ClientIPHeader float32 s) 2 true = Ok origin ->
  storeOfRequest s clk req = (b, Ok key) ->
  ParseBlobKey (Disperser.String key) = Ok key ->
  (forall m, Disperser.Status m = Disperser.Processing ->
             IsConfirmed (Some m) = Ok false) ->
  exists s' reply,
    DisperseBlob s ctx clk req = (s', Ok reply)
    /\ GetBlobStatus s' (Pb.RequestId reply)
       = Ok (Pb.mkBlobStatusReply Pb.BlobStatus_PROCESSING
                                  (Pb.mkBlobInfo None None)).
Proof.
  intros Hsize Horigin Hstore Hparse Hconf.
  exists (Apiserver.withBlobStore float32 s b),
    (Pb.mkDisperseBlobReply Pb.BlobStatus_PROCESSING (Disperser.String key)).
  split.
  { exact (DisperseBlob_stores MaxBlobSize context GetClientAddress float32
             s ctx clk req origin b key Hsize Horigin Hstore). }
  cbn [Pb.RequestId].
  destruct (StoreBlob_lookup _ _ _ _ _ _ Hstore) as (m & Hget & Hk & Hst).
  unfold Apiserver.GetBlobStatus.
  assert (Hlen : (length (Disperser.String key) =? 0)%nat = false).
  { unfold Disperser.String. rewrite !length_app. cbn.
    apply Nat.eqb_neq. lia. }
  rewrite Hlen, Hparse.
  change (Apiserver.blobStore float32 (Apiserver.withBlobStore float32 s b))
    with b.
  rewrite Hget. unfold Apiserver.missOrMismatch.
  rewrite Hk, bool_decide_eq_true_2 by reflexivity. cbn [negb andb].
  unfold Apiserver.statusReply. rewrite (Hconf m Hst), Hst.
  now destruct (Apiserver.metadataHashAsBlobKey
                  float32 (Apiserver.withBlobStore float32 s b)).
Qed.

(** X15: a dispersal that is not answered by a reply has written no
    record: the metadata table is the one before the call, and so is every
    field of the server but the blob store. *)
Theorem DisperseBlob_failure_keeps_table (s : Server) (ctx : context)
        (clk : Apiserver.clock) (req : Pb.DisperseBlobRequest) :
  (forall reply, snd (DisperseBlob s ctx clk req) <> Ok reply) ->
  Blobstore.blobMetadataStore
    (Apiserver.blobStore float32 (fst (DisperseBlob s ctx clk req)))
  = Blobstore.blobMetadataStore (Apiserver.blobStore float32 s)
  /\ Apiserver.withBlobStore float32 (fst (DisperseBlob s ctx clk req))
                             (Apiserver.blobStore float32 s)
     = s.
Proof.
  assert (Heta : Apiserver.withBlobStore float32 s (Apiserver.blobStore float32 s) = s)
    by now destruct s.
  unfold Apiserver.DisperseBlob.
  destruct (_ <? _)%N; [intros _; now split|].
  destruct (_ =? _)%N; [intros _; now split|].
  destruct (GetClientAddress _ _ _ _); [|intros _; now split..].
  pose proof (StoreBlob_error_table
                (Apiserver.blobStore float32 s)
                (Some (Apiserver.getBlobFromRequest req))
                (Z.to_N (uint64 (Apiserver.nowRequest clk)))
                (Apiserver.nowStore clk)) as Htable.
  destruct (storeOfRequest s clk req) as [b [key|e|]]; cbn [fst snd] in *.
  - intros Hne. now destruct (Hne _ eq_refl).
  - intros _. split; [now apply Htable | now destruct s].
  - intros _. split; [now apply Htable | now destruct s].
Qed.

(** X16: the security parameters of a request are cut to eight bits
    without a check: two requests with the same data and row number whose
    parameters agree modulo 256 are dispersed alike. *)
Theorem DisperseBlob_cuts_params (s : Server) (ctx : context)
        (clk : Apiserver.clock) (req req' : Pb.DisperseBlobRequest) :
  Pb.Data req = Pb.Data req' ->
  Pb.TargetRowNum req = Pb.TargetRowNum req' ->
  Forall2 (fun p q =>
             (Pb.QuorumId p mod 256 = Pb.QuorumId q mod 256
              /\ Pb.AdversaryThreshold p mod 256 = Pb.AdversaryThreshold q mod 256
              /\ Pb.QuorumThreshold p mod 256 = Pb.QuorumThreshold q mod 256)%N)
          (Pb.ReqSecurityParams req) (Pb.ReqSecurityParams req') ->
  DisperseBlob s ctx clk req = DisperseBlob s ctx clk req'.
Proof.
  intros Hdata Hrow Hparams.
  assert (Hblob : Apiserver.getBlobFromRequest req
                  = Apiserver.getBlobFromRequest req').
  { unfold Apiserver.getBlobFromRequest. rewrite Hdata, Hrow. do 2 f_equal.
    induction Hparams as [|p q ps qs (Hq & Ha & Ht) _ IH]; [reflexivity|].
    cbn [map]. change (2 ^ 8)%N with 256%N in *.
    now rewrite Hq, Ha, Ht, IH. }
  unfold Apiserver.DisperseBlob. now rewrite Hdata, Hblob.
Qed.

(** X17: when the status query uses neither the KV nor the finalized block
    number.  Two servers with the same blob store and the same mode answer
    a request id alike, whatever else differs between them, if the mode of
    the metadata hash as blob key is off, or if the primary store holds
    for the parsed key a record whose key prints as the request id. *)
Theorem GetBlobStatus_primary_only (s1 s2 : Server) (requestID : list byte) :
  Apiserver.blobStore float32 s1 = Apiserver.blobStore float32 s2 ->
  Apiserver.metadataHashAsBlobKey float32 s1
  = Apiserver.metadataHashAsBlobKey float32 s2 ->
  (Apiserver.metadataHashAsBlobKey float32 s1 = false
   \/ forall key, ParseBlobKey requestID = Ok key ->
        exists m,
          fst (Blobstore.GetBlobMetadata (Apiserver.blobStore float32 s1) key)
          = Some m
          /\ Disperser.String (Disperser.GetBlobKey m) = requestID) ->
  GetBlobStatus s1 requestID = GetBlobStatus s2 requestID.
Proof.
  intros Hstore Hmode Hcase. unfold Apiserver.GetBlobStatus.
  rewrite <- Hstore, <- Hmode.
  destruct (_ =? _)%nat; [reflexivity|].
  destruct (ParseBlobKey requestID) as [key|e|]; [|reflexivity..].
  destruct (Blobstore.GetBlobMetadata _ key) as [metadata err] eqn:Hget.
  destruct Hcase as [Hoff | Hhit].
  - rewrite Hoff, andb_false_r. now destruct err.
  - destruct (Hhit key eq_refl) as (m & Hm & Hprint).
    rewrite Hget in Hm. cbn [fst] in Hm. subst metadata.
    unfold Apiserver.missOrMismatch.
    rewrite bool_decide_eq_true_2 by exact Hprint. cbn [negb andb].
    now destruct err, (Apiserver.metadataHashAsBlobKey float32 s1).
Qed.

(** X18: a record of the KV that is not yet final keeps its status.  In
    the mode of the metadata hash as blob key, on a miss of the primary
    store, a record of the KV whose [ConfirmationBlockNumber] is above
    [latestFinalizedBlock] is answered with its own status (provided
    [IsConfirmed] answers for it and, when it answers yes, each quorum of
    the confirmation has a result). *)
Theorem GetBlobStatus_kv_not_final (s : Server) (requestID : list byte)
        (key : Disperser.BlobKey) (md : Disperser.BlobMetadata)
        (ci : Disperser.ConfirmationInfo) (b : bool) :
  Apiserver.metadataHashAsBlobKey float32 s = true ->
  requestID <> [] ->
  ParseBlobKey requestID = Ok key ->
  Apiserver.missOrMismatch
    (fst (Blobstore.GetBlobMetadata (Apiserver.blobStore float32 s) key))
    requestID = true ->
  Apiserver.kvRecord Deserialize float32 s requestID = Some md ->
  Disperser.Confirmation md = Some ci ->
  (Apiserver.latestFinalizedBlock float32 s
   < Disperser.ConfirmationBlockNumber ci)%N ->
  IsConfirmed (Some md) = Ok b ->
  (b = true -> Spec.resultsComplete ci) ->
  exists reply,
    GetBlobStatus s requestID = Ok reply
    /\ Pb.Status reply = Apiserver.getResponseStatus (Disperser.Status md).
Proof.
  intros Hmode Hne Hparse Hmiss Hkv Hci Hlt Hconf Hres.
  rewrite (GetBlobStatus_fallback ParseBlobKey IsConfirmed Deserialize float32
             s requestID key Hmode Hne Hparse Hmiss).
  unfold Apiserver.kvFallback. rewrite Hkv, Hci.
  destruct (N.leb_spec (Disperser.ConfirmationBlockNumber ci)
                       (Apiserver.latestFinalizedBlock float32 s)); [lia|].
  apply (statusReply_built IsConfirmed md b Hconf).
  intros Hb. exists ci. split; [exact Hci | exact (Hres Hb)].
Qed.

(** X19: the finalized block number under the loop of [Start].  If no
    answer of the chain is a nil header, the loop does not fault, changes
    no other field of the server, and never lowers the number; the number
    it leaves is at least every block number answered, cut to 32 bits,
    and is either the one before or one of those. *)
Theorem mirrorFinalized_monotone
        (headers : list (outcome error (option N))) :
  forall s : Server,
    Forall (fun h => h <> Panic /\ h <> Ok None) headers ->
    exists s',
      Apiserver.mirrorFinalized float32 s headers = Some s'
      /\ s' = Apiserver.withLatestFinalizedBlock
                float32 s (Apiserver.latestFinalizedBlock float32 s')
      /\ (Apiserver.latestFinalizedBlock float32 s
          <= Apiserver.latestFinalizedBlock float32 s')%N
      /\ (forall n, In (Ok (Some n)) headers ->
            (n mod 2 ^ 32 <= Apiserver.latestFinalizedBlock float32 s')%N)
      /\ (Apiserver.latestFinalizedBlock float32 s'
          = Apiserver.latestFinalizedBlock float32 s
          \/ exists n, In (Ok (Some n)) headers
                       /\ Apiserver.latestFinalizedBlock float32 s'
                          = (n mod 2 ^ 32)%N).
Proof.
  induction headers as [|h headers IH]; intros s Hall.
  - exists s. split; [reflexivity|]. split; [now destruct s|].
    split; [lia|]. split; [intros n []|now left].
  - apply Forall_cons_1 in Hall as [[Hp Hn] Hall].
    cbn [Apiserver.mirrorFinalized].
    destruct h as [[n|]|e|]; try contradiction.
    + cbn [Apiserver.UpdateLatestFinalizedBlock]. rewrite mod64_mod32.
      destruct (N.ltb_spec (Apiserver.latestFinalizedBlock float32 s)
                           (n mod 2 ^ 32)) as [Hlt | Hge].
      * destruct (IH (Apiserver.withLatestFinalizedBlock float32 s (n mod 2 ^ 32))
                     Hall) as (s' & Hrun & Heq & Hle & Hmax & Hfrom).
        cbn [Apiserver.latestFinalizedBlock Apiserver.withLatestFinalizedBlock]
          in Hle, Hfrom.
        exists s'. split; [exact Hrun|]. split; [exact Heq|].
        split; [lia|]. split.
        -- intros k [[= <-] | Hk]; [exact Hle | now apply Hmax].
        -- right. destruct Hfrom as [-> | (k & Hk & ->)].
           ++ exists n. split; [now left | reflexivity].
           ++ exists k. split; [now right | reflexivity].
      * destruct (IH s Hall) as (s' & Hrun & Heq & Hle & Hmax & Hfrom).
        exists s'. split; [exact Hrun|]. split; [exact Heq|].
        split; [exact Hle|]. split.
        -- intros k [[= <-] | Hk]; [lia | now apply Hmax].
        -- destruct Hfrom as [-> | (k & Hk & ->)]; [now left|].
           right. exists k. split; [now right | reflexivity].
    + cbn [Apiserver.UpdateLatestFinalizedBlock].
      destruct (IH s Hall) as (s' & Hrun & Heq & Hle & Hmax & Hfrom).
      exists s'. split; [exact Hrun|]. split; [exact Heq|].
      split; [exact Hle|]. split.
      * intros k [Hk | Hk]; [discriminate | now apply Hmax].
      * destruct Hfrom as [-> | (k & Hk & ->)]; [now left|].
        right. exists k. split; [now right | reflexivity].
Qed.

(** X20: what [RetrieveBlob] reads of the batch header hash: its first 32
    bytes, filled up with zero bytes when it is shorter.  So two requests
    with the same blob index whose hashes agree on that are answered
    alike. *)
Theorem RetrieveBlob_hash_prefix (s : Server) (blobIndex : N)
        (hash hash' : list byte) :
  length (Apiserver.toArray32 hash) = 32%nat
  /\ Apiserver.toArray32 hash
     = firstn 32 hash ++ repeat x00 (32 - length hash)
  /\ (firstn 32 hash ++ repeat x00 (32 - length hash)
      = firstn 32 hash' ++ repeat x00 (32 - length hash') ->
      RetrieveBlob s (Pb.mkRetrieveBlobRequest hash blobIndex)
      = RetrieveBlob s (Pb.mkRetrieveBlobRequest hash' blobIndex)).
Proof.
  assert (Hshape : forall h, Apiserver.toArray32 h
                             = firstn 32 h ++ repeat x00 (32 - length h)).
  { intros h. unfold Apiserver.toArray32, Core.copyInto.
    now rewrite repeat_length, skipn_repeat. }
  split; [|split].
  - unfold Apiserver.toArray32. now rewrite copyInto_length, repeat_length.
  - apply Hshape.
  - intros Heq. unfold Apiserver.RetrieveBlob. cbn [Pb.ReqBatchHeaderHash].
    now rewrite !Hshape, Heq.
Qed.

(** X21: what was dispersed is what is retrieved.  Let [DisperseBlob]
    store a request, and let the batcher then confirm a record, whichever.
    A retrieval for a batch coordinate under which the index then holds a
    record with the key of the request returns the data of the request. *)
Theorem DisperseBlob_confirm_RetrieveBlob (s : Server) (ctx : context)
        (clk : Apiserver.clock) (req : Pb.DisperseBlobRequest)
        (origin : gostring) (b : Blobstore.SharedBlobStore)
        (key : Disperser.BlobKey) (retrieval : Pb.RetrieveBlobRequest)
        (m existing : Disperser.BlobMetadata)
        (confirmationInfo : Disperser.ConfirmationInfo) (now : Z) :
  let confirmed :=
    fst (fst (Blobstore.MarkBlobConfirmed b existing confirmationInfo now)) in
  (1 <= N.of_nat (length (Pb.Data req)) <= MaxBlobSize)%N ->
  GetClientAddress ctx (Apiserver.ClientIPHeader float32 s) 2 true = Ok origin ->
  storeOfRequest s clk req = (b, Ok key) ->
  GetBlobMetadataInBatch (Blobstore.blobMetadataStore confirmed)
                         (Apiserver.toArray32 (Pb.ReqBatchHeaderHash retrieval))
                         (Pb.ReqBlobIndex retrieval) = Ok m ->
  Disperser.GetBlobKey m = key ->
  RetrieveBlob (Apiserver.withBlobStore
                  float32 (fst (DisperseBlob s ctx clk req)) confirmed)
               retrieval
  = Ok (Pb.mkRetrieveBlobReply (Pb.Data req)).
Proof.
  intros confirmed Hsize Horigin Hstore Hindex Hkey.
  rewrite (DisperseBlob_stores MaxBlobSize context GetClientAddress float32
             s ctx clk req origin b key Hsize Horigin Hstore).
  unfold Apiserver.RetrieveBlob.
  change (Apiserver.blobStore
            float32 (Apiserver.withBlobStore
                       float32 (fst (Apiserver.withBlobStore float32 s b, _))
                       confirmed))
    with confirmed.
  rewrite Hindex.
  assert (Hsame : Blobstore.GetBlobContent confirmed m
                  = Blobstore.GetBlobContent b m).
  { subst confirmed. unfold Blobstore.MarkBlobConfirmed.
    now destruct (Blobstore.UpdateBlobMetadata _ _ _). }
  now rewrite Hsame, (StoreBlob_content _ _ _ _ _ _ m Hstore Hkey).
Qed.
End Service.

Lemma DisperseBlob_then_GetBlobStatus_witness :
  exists s' reply,
    Demo.DisperseBlob Demo.server Demo.origin (Apiserver.mkClock 0 0) Demo.oneByte
    = (s', Ok reply)
    /\ Demo.GetBlobStatus s' (Pb.RequestId reply)
       = Ok (Pb.mkBlobStatusReply Pb.BlobStatus_PROCESSING
                                  (Pb.mkBlobInfo None None)).
Proof.
  destruct (StoreBlob_available (Demo.store false)
              (Apiserver.getBlobFromRequest Demo.oneByte) 0 0 eq_refl eq_refl)
    as (b & key & Hstore & _).
  pose proof (StoreBlob_key _ _ _ _ _ _ Hstore) as Hkey.
  apply (DisperseBlob_then_GetBlobStatus
           Demo.MaxBlobSize gostring Demo.GetClientAddress Demo.ParseBlobKey
           Demo.IsConfirmed Demo.Deserialize N
           Demo.server Demo.origin (Apiserver.mkClock 0 0) Demo.oneByte
           Demo.origin b key).
  - vm_compute. split; discriminate.
  - reflexivity.
  - exact Hstore.
  - rewrite Hkey. vm_compute. reflexivity.
  - intros m Hm. unfold Demo.IsConfirmed. now rewrite Hm.
Defined.

Lemma DisperseBlob_failure_keeps_table_witness :
  Blobstore.blobMetadataStore
    (Apiserver.blobStore N
       (fst (Demo.DisperseBlob Demo.tableDownServer Demo.origin
                               (Apiserver.mkClock 0 0) Demo.oneByte)))
  = Blobstore.blobMetadataStore Demo.tableDown.
Proof.
  apply (DisperseBlob_failure_keeps_table
           Demo.MaxBlobSize gostring Demo.GetClientAddress N
           Demo.tableDownServer Demo.origin (Apiserver.mkClock 0 0)
           Demo.oneByte).
  intros reply. vm_compute. discriminate.
Defined.

Lemma DisperseBlob_cuts_params_witness :
  Demo.DisperseBlob Demo.server Demo.origin (Apiserver.mkClock 0 0) Demo.oneByte
  = Demo.DisperseBlob Demo.server Demo.origin (Apiserver.mkClock 0 0) Demo.wide.
Proof.
  apply (DisperseBlob_cuts_params
           Demo.MaxBlobSize gostring Demo.GetClientAddress N
           Demo.server Demo.origin (Apiserver.mkClock 0 0)
           Demo.oneByte Demo.wide).
  - reflexivity.
  - reflexivity.
  - constructor; [|constructor]. vm_compute. now repeat split.
Defined.

Lemma GetBlobStatus_primary_only_witness :
  Demo.GetBlobStatus Demo.server Demo.requestID
  = Demo.GetBlobStatus Demo.otherKV Demo.requestID.
Proof.
  apply (GetBlobStatus_primary_only
           Demo.ParseBlobKey Demo.IsConfirmed Demo.Deserialize N
           Demo.server Demo.otherKV Demo.requestID).
  - reflexivity.
  - reflexivity.
  - left. reflexivity.
Defined.

Lemma GetBlobStatus_kv_not_final_witness :
  exists reply,
    Demo.GetBlobStatus (Demo.kvServer [x02; x05] 4) Demo.requestID = Ok reply
    /\ Pb.Status reply = Pb.BlobStatus_CONFIRMED.
Proof.
  refine (GetBlobStatus_kv_not_final
            Demo.ParseBlobKey Demo.IsConfirmed Demo.Deserialize N
            (Demo.kvServer [x02; x05] 4) Demo.requestID
            (Disperser.mkBlobKey (lit "aa") (lit "bb"))
            (Disperser.mkBlobMetadata (lit "aa") (lit "bb")
               Disperser.Confirmed 0 0 None (Some (Demo.confirmedAt 5)))
            (Demo.confirmedAt 5) true
            eq_refl _ eq_refl _ _ eq_refl _ eq_refl _).
  - discriminate.
  - vm_compute. reflexivity.
  - vm_compute. reflexivity.
  - vm_compute. reflexivity.
  - intros _. apply Forall_nil_2.
Defined.

Lemma mirrorFinalized_monotone_witness :
  exists s',
    Apiserver.mirrorFinalized N Demo.server Demo.finalizedAnswers = Some s'
    /\ Apiserver.latestFinalizedBlock N s' = 5%N.
Proof.
  destruct (mirrorFinalized_monotone N Demo.finalizedAnswers Demo.server)
    as (s' & Hrun & _ & _ & Hmax & Hfrom).
  - repeat (constructor; [split; discriminate|]). constructor.
  - exists s'. split; [exact Hrun|].
    pose proof (Hmax 5%N (or_introl eq_refl)) as Hfive.
    change (5 mod 2 ^ 32)%N with 5%N in Hfive.
    destruct Hfrom as [Hzero | (n & Hn & Heq)].
    + change (Apiserver.latestFinalizedBlock N Demo.server) with 0%N in Hzero.
      lia.
    + destruct Hn as [[= <-] | [[=] | [[= <-] | [[= <-] | []]]]];
        rewrite Heq in Hfive |- *;
        first [reflexivity | exfalso; apply Hfive; reflexivity].
Defined.

Lemma RetrieveBlob_hash_prefix_witness :
  Demo.RetrieveBlob Demo.server (Pb.mkRetrieveBlobRequest [] 0)
  = Demo.RetrieveBlob Demo.server (Pb.mkRetrieveBlobRequest [x00] 0).
Proof.
  apply (RetrieveBlob_hash_prefix Demo.GetBlobMetadataInBatch N
                                  Demo.server 0 [] [x00]).
  reflexivity.
Defined.

Lemma DisperseBlob_confirm_RetrieveBlob_witness :
  exists b key,
    Blobstore.StoreBlob (Demo.store false)
                        (Some (Apiserver.getBlobFromRequest Demo.oneByte)) 0 0
    = (b, Ok key)
    /\ Demo.RetrieveBlob
         (Apiserver.withBlobStore
            N (fst (Demo.DisperseBlob Demo.server Demo.origin
                                      (Apiserver.mkClock 0 0) Demo.oneByte))
            (fst (fst (Blobstore.MarkBlobConfirmed b (Demo.recordOf key)
                                                   Demo.inBatch 0))))
         (Pb.mkRetrieveBlobRequest (repeat x01 32) 0)
       = Ok (Pb.mkRetrieveBlobReply (lit "a")).
Proof.
  destruct (StoreBlob_available (Demo.store false)
              (Apiserver.getBlobFromRequest Demo.oneByte) 0 0 eq_refl eq_refl)
    as (b & key & Hstore & _).
  exists b, key. split; [exact Hstore|].
  pose proof (StoreBlob_key _ _ _ _ _ _ Hstore) as Hkey.
  pose proof (StoreBlob_inv _ _ _ _ _ _ Hstore) as (_ & _ & Hb).
  apply (DisperseBlob_confirm_RetrieveBlob
           Demo.MaxBlobSize gostring Demo.GetClientAddress
           Demo.GetBlobMetadataInBatch N
           Demo.server Demo.origin (Apiserver.mkClock 0 0) Demo.oneByte
           Demo.origin b key (Pb.mkRetrieveBlobRequest (repeat x01 32) 0)
           (Disperser.mkBlobMetadata
              (Disperser.KeyBlobHash key) (Disperser.KeyMetadataHash key)
              Disperser.Confirmed 0 0 None (Some Demo.inBatch))
           (Demo.recordOf key) Demo.inBatch 0).
  - vm_compute. split; discriminate.
  - reflexivity.
  - exact Hstore.
  - rewrite Hb, Hkey. vm_compute. reflexivity.
  - now destruct key.
Defined.

(* ===================================================================== *)
(** * Further properties: the rate limiter *)
(* ===================================================================== *)

Section LimiterEdges.
Variable float32 : Type.
Variable quotient : N -> N -> float32 -> Z.
Context {S : Type} `{KVStore Ratelimit.RateBucketParams S}.

Local Abbreviation Limiter := (Ratelimit.rateLimiter float32 (S := S)).
Local Abbreviation AllowRequest := (Ratelimit.AllowRequest float32 quotient).
Local Abbreviation newLevels := (Spec.newLevels float32 quotient).
Local Abbreviation startingBucket := (Spec.startingBucket float32).



Lemma newLevels_bounds (blobSize rate : N) (interval : Z)
      (levels sizes : list Z) (ms : list float32) :
  length levels = length sizes -> length ms = length sizes ->
  Forall2 (fun level size => level <= size /\ (0 <= size -> 0 <= level))
          (newLevels blobSize rate interval levels sizes ms) sizes.
Proof.
  revert levels ms. induction sizes as [|size sizes IH];
    intros [|l levels] [|m ms] Hl Hm; cbn in Hl, Hm; try discriminate.
  - constructor.
  - cbn [Spec.newLevels]. constructor.
    + unfold Spec.newLevel, Spec.clamp. lia.
    + apply IH; lia.
Qed.

(** X23: the bounds of the levels.  For a requester off the allowlist,
    with a multiplier and a level for each tier, the call returns a
    boolean, and the levels it hands to [UpdateItem], when it writes, are
    one per tier, none above the size of its tier and none below 0 where
    that size is not negative.  So a limiter with a tier whose size is not
    positive allows no such request. *)
Theorem AllowRequest_level_bounds (d : Limiter) (clk : Ratelimit.clock)
        (requesterID : gostring) (blobSize rate : N)
        (st1 : S) (item : option Ratelimit.RateBucketParams) :
  let p := Ratelimit.globalRateParams float32 d in
  let bp := startingBucket p clk item in
  existsb (fun id => Strings.Contains requesterID id)
          (Ratelimit.allowlist float32 d) = false ->
  GetItem (Ratelimit.bucketStore float32 d) requesterID = (st1, item) ->
  length (Ratelimit.Multipliers float32 p) = length (Ratelimit.BucketSizes float32 p) ->
  length (Ratelimit.BucketLevels bp) = length (Ratelimit.BucketSizes float32 p) ->
  exists (levels' : list Z) (allowed : bool),
    Spec.returned (snd (AllowRequest d clk requesterID blobSize rate))
    = Some allowed
    /\ (allowed || Ratelimit.CountFailed float32 p = true ->
        fst (AllowRequest d clk requesterID blobSize rate)
        = Ratelimit.withBucketStore float32 d
            (fst (UpdateItem st1 requesterID
                    (Ratelimit.mkRateBucketParams levels' (Ratelimit.nowStamp clk)))))
    /\ Forall2 (fun level size => level <= size /\ (0 <= size -> 0 <= level))
               levels' (Ratelimit.BucketSizes float32 p)
    /\ (Exists (fun size => size <= 0) (Ratelimit.BucketSizes float32 p) ->
        allowed = false).
Proof.
  intros p bp Hlist Hget Hms Hls.
  pose proof (AllowRequest_run float32 quotient d clk requesterID blobSize rate
                st1 item Hlist Hget Hms Hls) as Hrun.
  cbv zeta in Hrun. fold p bp in Hrun.
  set (interval := Ratelimit.Sub (Ratelimit.nowSince clk)
                                 (Ratelimit.LastRequestTime bp)) in *.
  set (levels' := newLevels blobSize rate interval (Ratelimit.BucketLevels bp)
                            (Ratelimit.BucketSizes float32 p)
                            (Ratelimit.Multipliers float32 p)) in *.
  set (allowed := forallb (fun l => 0 <? l) levels') in *.
  pose proof (newLevels_bounds blobSize rate interval
                (Ratelimit.BucketLevels bp) (Ratelimit.BucketSizes float32 p)
                (Ratelimit.Multipliers float32 p) Hls Hms) as Hbounds.
  fold levels' in Hbounds.
  exists levels', allowed. split; [|split; [|split]].
  - rewrite Hrun. destruct (allowed || _); [|reflexivity]. cbn [snd].
    now destruct (snd (UpdateItem _ _ _)).
  - intros Hsave. now rewrite Hrun, Hsave.
  - exact Hbounds.
  - intros Hex. subst allowed. clearbody levels'.
    clear -Hbounds Hex. induction Hbounds as [|l size ls sizes [Hle _] _ IH].
    + inversion Hex.
    + cbn [forallb]. apply Exists_cons in Hex as [Hsize | Hrest].
      * destruct (Z.ltb_spec 0 l); [lia | reflexivity].
      * rewrite IH by exact Hrest. apply andb_false_r.
Qed.
End LimiterEdges.


Lemma AllowRequest_level_bounds_witness :
  Spec.returned (snd (Ratelimit.AllowRequest N Demo.quotient Demo.noSize
                                             Demo.atZero Demo.stranger 1 1))
  = Some false.
Proof.
  destruct (AllowRequest_level_bounds N Demo.quotient Demo.noSize Demo.atZero
              Demo.stranger 1 1
              (fst (GetItem (Ratelimit.bucketStore N Demo.noSize) Demo.stranger))
              (snd (GetItem (Ratelimit.bucketStore N Demo.noSize) Demo.stranger)))
    as (levels' & allowed & Hret & _ & _ & Hnone).
  - reflexivity.
  - apply surjective_pairing.
  - reflexivity.
  - vm_compute. reflexivity.
  - rewrite Hret, Hnone; [reflexivity|]. left. cbn. lia.
Defined.
